(** * Wiki_Crawler: a shallow embedding of [Information/wiki_crawler.py]

    The crawler object, its frontier (a FIFO of URLs), its visited set, the
    page store and the checkpoint file are modelled with explicit state
    passing.  The libraries the crawler calls ([requests], [BeautifulSoup],
    [urljoin]) and the outcome of file writes are the environment: they are
    variables of the development, so every theorem holds for every web, every
    parser and every disk behaviour.  *)

From Stdlib Require Import ZArith Ascii String List Bool Lia.
From stdpp Require Import base gmap strings list.
Import ListNotations.

Local Set Warnings "-register-all".
Local Open Scope string_scope.
Local Open Scope Z_scope.
Local Open Scope list_scope.

(** ** Python strings

    A Python [str] is modelled by [string]; each [ascii] stands for a code
    point below 256. *)

Module PyStr.

(** [str.isspace] on one code point below 256. *)
Definition is_space (c : ascii) : bool :=
  let n := nat_of_ascii c in
  ((9 <=? n)%nat && (n <=? 13)%nat)
  || ((28 <=? n)%nat && (n <=? 32)%nat)
  || (n =? 133)%nat || (n =? 160)%nat.

Fixpoint lstrip (s : string) : string :=
  match s with
  | EmptyString => EmptyString
  | String c r => if is_space c then lstrip r else s
  end.

Fixpoint rstrip (s : string) : string :=
  match s with
  | EmptyString => EmptyString
  | String c r =>
      match rstrip r with
      | EmptyString => if is_space c then EmptyString else String c EmptyString
      | r' => String c r'
      end
  end.

(** [s.strip()] *)
Definition strip (s : string) : string := rstrip (lstrip s).

(** Truth value of a string: [bool(s)]. *)
Definition truthy (s : string) : bool :=
  match s with EmptyString => false | String _ _ => true end.

(** [s.startswith(p)], returning the remainder. *)
Fixpoint drop_prefix (p s : string) : option string :=
  match p, s with
  | EmptyString, _ => Some s
  | String a p', String b s' => if Ascii.eqb a b then drop_prefix p' s' else None
  | String _ _, EmptyString => None
  end.

Fixpoint all_chars (f : ascii -> bool) (s : string) : bool :=
  match s with
  | EmptyString => true
  | String c r => f c && all_chars f r
  end.

Fixpoint map_chars (f : ascii -> ascii) (s : string) : string :=
  match s with
  | EmptyString => EmptyString
  | String c r => String (f c) (map_chars f r)
  end.

Fixpoint last_char (s : string) : option ascii :=
  match s with
  | EmptyString => None
  | String c EmptyString => Some c
  | String _ r => last_char r
  end.

Definition concat_all (l : list string) : string :=
  fold_right String.append EmptyString l.

End PyStr.

(** ** [os.path.join] for two components (POSIX) *)

Definition os_path_join (a b : string) : string :=
  match PyStr.drop_prefix "/" b with
  | Some _ => b
  | None =>
      match PyStr.last_char a with
      | None => b
      | Some c => if Ascii.eqb c "/"%char then (a ++ b)%string else (a ++ "/" ++ b)%string
      end
  end.

(** ** The document tree handed back by [BeautifulSoup]

    A node is a string or a tag with a name, attributes and children.  The
    [class] attribute is stored by the parser as the list of its
    whitespace-separated tokens ([AttrList]); every other attribute is a
    string.  Comments and script text, which [get_text] leaves out, are not
    part of the model. *)

Inductive attr_value :=
| AttrStr (s : string)
| AttrList (l : list string).

Inductive node :=
| NavigableString (s : string)
| Tag (name : string) (attrs : list (string * attr_value)) (contents : list node).

Module Soup.

Definition name_of (n : node) : option string :=
  match n with
  | NavigableString _ => None
  | Tag nm _ _ => Some nm
  end.

Definition children (n : node) : list node :=
  match n with
  | NavigableString _ => []
  | Tag _ _ cs => cs
  end.

(** [tag.get(key)] *)
Fixpoint attr_get (key : string) (attrs : list (string * attr_value)) : option attr_value :=
  match attrs with
  | [] => None
  | (k, v) :: r => if String.eqb k key then Some v else attr_get key r
  end.

Definition get (key : string) (n : node) : option attr_value :=
  match n with
  | NavigableString _ => None
  | Tag _ a _ => attr_get key a
  end.

(** [tag.descendants]: every node below [n], in document order. *)
Fixpoint descendants (n : node) : list node :=
  match n with
  | NavigableString _ => []
  | Tag _ _ cs => flat_map (fun c => c :: descendants c) cs
  end.

(** [tag.get_text()], also [tag.text]. *)
Fixpoint get_text (n : node) : string :=
  match n with
  | NavigableString s => s
  | Tag _ _ cs => PyStr.concat_all (List.map get_text cs)
  end.

Definition is_tag (nm : string) (n : node) : bool :=
  match n with
  | NavigableString _ => false
  | Tag nm' _ _ => String.eqb nm' nm
  end.

(** How the tree search compares an attribute value with a wanted string:
    a string attribute must be equal, a token list must contain it or
    spell it when joined with spaces. *)
Definition join_tokens (l : list string) : string :=
  match l with
  | [] => EmptyString
  | t :: r => fold_left (fun acc x => (acc ++ " " ++ x)%string) r t
  end.

Definition value_matches (want : string) (v : attr_value) : bool :=
  match v with
  | AttrStr s => String.eqb s want
  | AttrList l => existsb (fun t => String.eqb t want) l || String.eqb (join_tokens l) want
  end.

Definition has_attr (key want : string) (n : node) : bool :=
  match get key n with
  | Some v => value_matches want v
  | None => false
  end.

(** [soup.find_all(name)] *)
Definition find_all (nm : string) (soup : node) : list node :=
  List.filter (is_tag nm) (descendants soup).

(** [soup.find(id=i)] *)
Definition find_id (i : string) (soup : node) : option node :=
  List.find (has_attr "id" i) (descendants soup).

(** [soup.find(name, {"class": c})] *)
Definition find_class (nm c : string) (soup : node) : option node :=
  List.find (fun n => is_tag nm n && has_attr "class" c n) (descendants soup).

(** [soup.find_all(name, {"class": c})] *)
Definition find_all_class (nm c : string) (soup : node) : list node :=
  List.filter (fun n => is_tag nm n && has_attr "class" c n) (descendants soup).

End Soup.

(** ** Page records, files and crawler state *)

(** One entry of [page_data["paragraphs"]]. *)
Record paragraph := { section : string; text : string }.

(** The dictionary built by [parse_page]. *)
Record page_data := {
  url : string;
  title : string;
  paragraphs : list paragraph;
  links : list string;
  table_of_contents : list string
}.

(** What a file of the crawl directory holds once decoded by [json.load]:
    a page record, a checkpoint, or bytes that are not a JSON document (a
    write that broke off). *)
Inductive file :=
| PageFile (d : page_data)
| ProgressFile (saved_visited_urls : list string) (saved_pages_processed : Z)
| Garbage.

(** Outcome of [open(path, "w")] followed by [json.dump]. *)
Inductive write_outcome :=
| WriteOk
| OpenFails
| DumpFails.

(** The environment of one crawl.  [requests_get t u] is the answer to the
    request for [u] made at time [t]: [Some body] when [requests.get] and
    [raise_for_status] return, [None] when either raises.  [open_write t p]
    is the fate of the write to path [p] made at time [t]. *)
Record World := {
  requests_get : nat -> string -> option string;
  open_write : nat -> string -> write_outcome
}.

(** What a run does to the outside, in the order it happens. *)
Inductive event :=
| EvDownload (u : string)
| EvStored (path : string)
| EvSaveProgress (written : bool).

(** The attributes of a [Wiki_Crawler] object, with the files of the machine
    and the clock that counts the calls made to the environment.  A file is
    known by the path the program opens it with: two spellings of one path,
    or a link, are different keys, the file system's resolution of names is
    not modelled. *)
Record state := {
  start_url : string;
  directory : string;
  max_pages : Z;
  visited_urls : gset string;
  url_queue : list string;
  pages_processed : Z;
  files : gmap string file;
  clock : nat
}.

Definition set_visited_urls (v : gset string) (s : state) : state :=
  {| start_url := start_url s; directory := directory s; max_pages := max_pages s;
     visited_urls := v; url_queue := url_queue s;
     pages_processed := pages_processed s; files := files s; clock := clock s |}.

Definition set_url_queue (q : list string) (s : state) : state :=
  {| start_url := start_url s; directory := directory s; max_pages := max_pages s;
     visited_urls := visited_urls s; url_queue := q;
     pages_processed := pages_processed s; files := files s; clock := clock s |}.

Definition set_pages_processed (n : Z) (s : state) : state :=
  {| start_url := start_url s; directory := directory s; max_pages := max_pages s;
     visited_urls := visited_urls s; url_queue := url_queue s;
     pages_processed := n; files := files s; clock := clock s |}.

Definition set_files (f : gmap string file) (s : state) : state :=
  {| start_url := start_url s; directory := directory s; max_pages := max_pages s;
     visited_urls := visited_urls s; url_queue := url_queue s;
     pages_processed := pages_processed s; files := f; clock := clock s |}.

Definition tick (s : state) : state :=
  {| start_url := start_url s; directory := directory s; max_pages := max_pages s;
     visited_urls := visited_urls s; url_queue := url_queue s;
     pages_processed := pages_processed s; files := files s; clock := S (clock s) |}.

(** ** The two regular expressions of the source *)

(** [re.compile(r"^/wiki/[^:#]*$").match(href)]: the prefix [/wiki/]
    followed to the end by characters other than [:] and [#]. *)
Definition wiki_page_link_pattern (href : string) : bool :=
  match PyStr.drop_prefix "/wiki/" href with
  | Some rest =>
      PyStr.all_chars (fun c => negb (Ascii.eqb c ":"%char || Ascii.eqb c "#"%char)) rest
  | None => false
  end.

(** The character class of the pattern in [store_page]: the nine characters
    less-than, greater-than, colon, double quote, slash, backslash, bar,
    question mark and star. *)
Definition unsafe_char (c : ascii) : bool :=
  existsb (Ascii.eqb c)
    ["<"%char; ">"%char; ":"%char; "034"%char; "/"%char; "092"%char;
     "|"%char; "?"%char; "*"%char].

(** [re.sub] of that class by an underscore, over the title. *)
Definition file_name_of (t : string) : string :=
  PyStr.map_chars (fun c => if unsafe_char c then "_"%char else c) t.

Definition progress_file (dir : string) : string :=
  os_path_join dir "crawl_progress.json".

Definition page_file_path (dir t : string) : string :=
  os_path_join dir (file_name_of t ++ ".json")%string.

(** ** The methods of [Wiki_Crawler] *)

Section Crawler.

(** [BeautifulSoup(content, "lxml")] and [urllib.parse.urljoin]. *)
Variable BeautifulSoup : string -> node.
Variable urljoin : string -> string -> string.
Variable W : World.

(** [with open(path, "w") as f: json.dump(content, f)].  The flag tells
    whether the block ran to its end. *)
Definition write_file (path : string) (content : file) (s : state) : bool * state :=
  match open_write W (clock s) path with
  | WriteOk => (true, set_files (<[path := content]> (files s)) (tick s))
  | OpenFails => (false, tick s)
  | DumpFails => (false, set_files (<[path := Garbage]> (files s)) (tick s))
  end.

Definition load_progress (s : state) : state :=
  match files s !! progress_file (directory s) with
  | None => s
  | Some (ProgressFile v _) =>
      let visited : gset string := list_to_set v in
      set_pages_processed (Z.of_nat (size visited)) (set_visited_urls visited s)
  | Some (PageFile _) =>
      set_pages_processed 0 (set_visited_urls ∅ s)
  | Some Garbage => s
  end.

(** [Wiki_Crawler(start_url, directory, max_pages)] on a machine whose files
    are [fs], at time [t], for a directory that exists or that [os.makedirs]
    creates; the constructor on a directory that cannot be created raises
    before [load_progress] and is not modelled. *)
Definition init (start dir : string) (max : Z) (fs : gmap string file) (t : nat) : state :=
  load_progress
    {| start_url := start; directory := dir; max_pages := max;
       visited_urls := ∅; url_queue := [start]; pages_processed := 0;
       files := fs; clock := t |}.

Definition save_progress (s : state) : state * list event :=
  let content := ProgressFile (elements (visited_urls s)) (pages_processed s) in
  let '(ok, s') := write_file (progress_file (directory s)) content s in
  (s', [EvSaveProgress ok]).

Definition download_page (u : string) (s : state) : option string * state * list event :=
  (requests_get W (clock s) u, tick s, [EvDownload u]).

Definition store_page (data : page_data) (s : state) : state * list event :=
  if negb (PyStr.truthy (title data)) then (s, [])
  else
    let file_path := page_file_path (directory s) (title data) in
    let '(ok, s') := write_file file_path (PageFile data) s in
    if ok then (set_pages_processed (pages_processed s' + 1) s', [EvStored file_path])
    else (s', []).

(** The body of the [for link in soup.find_all("a")] loop.  The parser
    stores an [href] as a string. *)
Definition extract_links_body (visited : gset string) (base_url : string)
    (acc : list string) (link : node) : list string :=
  match Soup.get "href" link with
  | Some (AttrStr href) =>
      if PyStr.truthy href && wiki_page_link_pattern href then
        let full_url := urljoin base_url href in
        if bool_decide (full_url ∈ visited) then acc else acc ++ [full_url]
      else acc
  | _ => acc
  end.

Definition extract_links (s : state) (soup : node) (base_url : string) : list string :=
  fold_left (extract_links_body (visited_urls s) base_url) (Soup.find_all "a" soup) [].

(** The body of the [for element in content_div.children] loop; the
    accumulator is [(current_section, page_data["paragraphs"])]. *)
Definition paragraphs_body (acc : string * list paragraph) (element : node)
    : string * list paragraph :=
  let '(current_section, ps) := acc in
  if Soup.is_tag "h2" element then (PyStr.strip (Soup.get_text element), ps)
  else if Soup.is_tag "p" element && PyStr.truthy (PyStr.strip (Soup.get_text element)) then
    (current_section,
     ps ++ [{| section := current_section; text := PyStr.strip (Soup.get_text element) |}])
  else acc.

Definition extract_paragraphs (soup : node) : list paragraph :=
  match Soup.find_class "div" "mw-parser-output" soup with
  | Some content_div => snd (fold_left paragraphs_body (Soup.children content_div) (EmptyString, []))
  | None => []
  end.

Definition extract_toc (soup : node) : list string :=
  match Soup.find_id "toc" soup with
  | Some toc =>
      List.map (fun item => PyStr.strip (Soup.get_text item))
        (Soup.find_all_class "span" "toctext" toc)
  | None => []
  end.

Definition parse_page (u content : string) (s : state) : option page_data * state :=
  let soup := BeautifulSoup content in
  match Soup.find_id "firstHeading" soup with
  | None => (None, s)
  | Some title_elem =>
      let new_links := extract_links s soup u in
      (Some {| url := u;
               title := PyStr.strip (Soup.get_text title_elem);
               paragraphs := extract_paragraphs soup;
               links := new_links;
               table_of_contents := extract_toc soup |},
       set_url_queue (url_queue s ++ new_links) s)
  end.

(** The test at the end of an iteration. *)
Definition save_periodically (s : state) : state * list event :=
  if (pages_processed s) mod 100 =? 0 then save_progress s else (s, []).

(** One iteration of the [while] loop of [crawl], entered with a frontier
    that is not empty. *)
Definition crawl_step (s : state) : state * list event :=
  match url_queue s with
  | [] => (s, [])
  | current_url :: rest =>
      let s := set_url_queue rest s in
      if bool_decide (current_url ∈ visited_urls s) then (s, [])
      else
        let '(content, s, e1) := download_page current_url s in
        match content with
        | None => (s, e1)
        | Some body =>
            if negb (PyStr.truthy body) then (s, e1)
            else
              let '(page, s) := parse_page current_url body s in
              let '(s, e2) :=
                match page with
                | Some d =>
                    let '(s, e) := store_page d s in
                    (set_visited_urls (visited_urls s ∪ {[current_url]}) s, e)
                | None => (s, [])
                end in
              let '(s, e3) := save_periodically s in
              (s, e1 ++ e2 ++ e3)
        end
  end.

(** [while self.url_queue and self.pages_processed < self.max_pages]. *)
Definition running (s : state) : bool :=
  match url_queue s with
  | [] => false
  | _ :: _ => pages_processed s <? max_pages s
  end.

(** The loop, run for at most [fuel] iterations: the loop need not end on
    its own, and a [KeyboardInterrupt] that arrives between two iterations
    stops it after any number of them.  An interrupt inside an iteration is
    not modelled; a run that ends through the loop condition is one where
    [running] is false at the end. *)
Fixpoint crawl_loop (fuel : nat) (s : state) : state * list event :=
  match fuel with
  | O => (s, [])
  | S n =>
      if running s then
        let '(s1, e1) := crawl_step s in
        let '(s2, e2) := crawl_loop n s1 in
        (s2, e1 ++ e2)
      else (s, [])
  end.

(** [crawl]: the loop, then the [finally] block. *)
Definition crawl (fuel : nat) (s : state) : state * list event :=
  let '(s1, e1) := crawl_loop fuel s in
  let '(s2, e2) := save_progress s1 in
  (s2, e1 ++ e2).

End Crawler.

(** ** Reading a run *)

Definition is_download (u : string) (e : event) : bool :=
  match e with
  | EvDownload v => String.eqb u v
  | _ => false
  end.

Definition is_stored (e : event) : bool :=
  match e with
  | EvStored _ => true
  | _ => false
  end.

Definition is_save (e : event) : bool :=
  match e with
  | EvSaveProgress _ => true
  | _ => false
  end.

(** How many times [u] was requested. *)
Definition downloads (u : string) (evs : list event) : nat :=
  length (List.filter (is_download u) evs).

(** How many page records were written. *)
Definition stored_count (evs : list event) : nat :=
  length (List.filter is_stored evs).

(** How many checkpoint writes were made. *)
Definition save_count (evs : list event) : nat :=
  length (List.filter is_save evs).

(** The iteration entered in state [s] gets a page with a non-empty body:
    its URL is not in the visited set and the request succeeds. *)
Definition fetches_page (W : World) (s : state) : bool :=
  match url_queue s with
  | [] => false
  | u :: _ =>
      negb (bool_decide (u ∈ visited_urls s))
      && match requests_get W (clock s) u with
         | Some body => PyStr.truthy body
         | None => false
         end
  end.

(** The number of page records written between each checkpoint and the
    next one.  [since] is the count since the last checkpoint, [None] before
    the first. *)
Fixpoint gaps_from (since : option nat) (evs : list event) : list nat :=
  match evs with
  | [] => []
  | EvSaveProgress _ :: r =>
      match since with
      | Some k => k :: gaps_from (Some O) r
      | None => gaps_from (Some O) r
      end
  | EvStored _ :: r => gaps_from (option_map S since) r
  | EvDownload _ :: r => gaps_from since r
  end.

Definition gaps (evs : list event) : list nat := gaps_from None evs.

(** What an iteration entered in [s] with result [r] does: the visited set
    only grows, no visited URL is requested, a checkpoint is written exactly
    when a page came back and the counter is then a multiple of 100, and the
    events are a part [pre] without checkpoint, holding at most one stored
    record, followed by at most one checkpoint [ck]. *)
Definition step_summary (W : World) (s : state) (r : state * list event) : Prop :=
  visited_urls s ⊆ visited_urls (fst r)
  /\ (forall v, v ∈ visited_urls s -> downloads v (snd r) = 0%nat)
  /\ save_count (snd r)
     = (if fetches_page W s && (pages_processed (fst r) mod 100 =? 0) then 1%nat else 0%nat)
  /\ exists pre ck, snd r = pre ++ ck
      /\ (forall e, In e pre -> is_save e = false)
      /\ (stored_count pre <= 1)%nat
      /\ pages_processed (fst r) = pages_processed s + Z.of_nat (stored_count pre)
      /\ (ck = [] \/ exists ok, ck = [EvSaveProgress ok]
                              /\ pages_processed (fst r) mod 100 = 0)
      /\ (stored_count pre = 1%nat -> pages_processed (fst r) mod 100 = 0 -> ck <> []).

(** The count [since] of records stored since the last checkpoint fits the
    counter [pp]: that checkpoint was made at a multiple of 100. *)
Definition gap_inv (since : option nat) (pp : Z) : Prop :=
  match since with
  | None => True
  | Some k => (k < 100)%nat /\ (pp - Z.of_nat k) mod 100 = 0
  end.

(** The page files of a directory listing: every file but the checkpoint. *)
Definition page_files (dir : string) (fs : gmap string file) : gmap string file :=
  delete (progress_file dir) fs.

(** Two states agree on the attributes a write never touches. *)
Definition same_crawler (s s' : state) : Prop :=
  start_url s' = start_url s /\ directory s' = directory s
  /\ max_pages s' = max_pages s /\ visited_urls s' = visited_urls s
  /\ url_queue s' = url_queue s /\ pages_processed s' = pages_processed s.

(** ** The extraction as the specification words it *)

Module Spec.

Definition is_heading (e : node) : bool := Soup.is_tag "h2" e.

Definition element_text (e : node) : string := PyStr.strip (Soup.get_text e).

(** A paragraph element with non-empty text. *)
Definition is_paragraph (e : node) : bool :=
  Soup.is_tag "p" e && PyStr.truthy (element_text e).

(** The top-level content elements of a document. *)
Definition content_elements (soup : node) : list node :=
  match Soup.find_class "div" "mw-parser-output" soup with
  | Some content_div => Soup.children content_div
  | None => []
  end.

(** The label of the most recent heading among the elements already seen,
    the empty string when there is none. *)
Definition most_recent_section (seen : list node) : string :=
  match List.find is_heading (rev seen) with
  | Some h => element_text h
  | None => EmptyString
  end.

(** Every paragraph of [rest], in document order, under the most recent
    heading seen before it; [seen] are the elements before [rest]. *)
Fixpoint sectioned (seen rest : list node) : list paragraph :=
  match rest with
  | [] => []
  | e :: r =>
      (if is_paragraph e
       then [{| section := most_recent_section seen; text := element_text e |}]
       else [])
      ++ sectioned (seen ++ [e]) r
  end.

(** The [href] of an anchor, when it has one. *)
Definition href_of (a : node) : list string :=
  match Soup.get "href" a with
  | Some (AttrStr h) => [h]
  | _ => []
  end.

(** The hrefs of all anchors of the document that match the content-page
    pattern, resolved against the base URL, without those already visited. *)
Definition outbound_links (urljoin : string -> string -> string)
    (visited : gset string) (soup : node) (base_url : string) : list string :=
  List.filter (fun full => negb (bool_decide (full ∈ visited)))
    (List.map (urljoin base_url)
       (List.filter wiki_page_link_pattern
          (flat_map href_of (Soup.find_all "a" soup)))).

End Spec.

(** ** Two small webs *)

Module Example.

(** [urljoin] for the pages of one site and hrefs that are absolute paths
    without dot segments: the path replaces that of the base. *)
Definition urljoin (base href : string) : string :=
  ("https://en.wikipedia.org" ++ href)%string.

Definition html (body : list node) : node :=
  Tag "[document]" [] [Tag "html" [] [Tag "body" [] body]].

Definition anchor (href label : string) : node :=
  Tag "a" [("href", AttrStr href)] [NavigableString label].

Definition history_url : string := "https://en.wikipedia.org/wiki/History".
Definition rome_url : string := "https://en.wikipedia.org/wiki/Rome".
Definition blank_url : string := "https://en.wikipedia.org/wiki/Blank".
Definition stub_url : string := "https://en.wikipedia.org/wiki/Stub".

(** A titled page with two anchors to the same article. *)
Definition history_body : string :=
  "<html><body><h1 id='firstHeading'>History</h1><a href='/wiki/Rome'>Rome</a><a href='/wiki/Rome'>Romans</a></body></html>".

Definition history_soup : node :=
  html [Tag "h1" [("id", AttrStr "firstHeading")] [NavigableString "History"];
        anchor "/wiki/Rome" "Rome"; anchor "/wiki/Rome" "Romans"].

(** A page whose title heading holds one space. *)
Definition blank_body : string :=
  "<html><body><h1 id='firstHeading'> </h1><a href='/wiki/Stub'>stub</a></body></html>".

Definition blank_soup : node :=
  html [Tag "h1" [("id", AttrStr "firstHeading")] [NavigableString " "];
        anchor "/wiki/Stub" "stub"].

(** A page without a title heading. *)
Definition stub_body : string := "<html><body><p>stub</p></body></html>".

Definition stub_soup : node :=
  html [Tag "p" [] [NavigableString "stub"]].

(** A page with a content area: three paragraphs and two headings. *)
Definition culture_body : string := "<culture page>".

Definition culture_soup : node :=
  html [Tag "h1" [("id", AttrStr "firstHeading")] [NavigableString "Culture"];
        Tag "div" [("class", AttrList ["mw-content-ltr"; "mw-parser-output"])]
          [Tag "p" [] [NavigableString "Lead."];
           NavigableString " ";
           Tag "h2" [] [NavigableString "History"];
           Tag "p" [] [NavigableString " Past. "];
           Tag "p" [] [NavigableString "  "];
           Tag "h2" [] [Tag "span" [] [NavigableString "Culture"]];
           Tag "p" [] [NavigableString "Arts."; anchor "/wiki/Category:Art" "art"]]].

(** A page whose content area is a paragraph, the heading History, a
    paragraph, the heading Culture and a paragraph. *)
Definition outline_body : string := "<outline page>".

Definition outline_soup : node :=
  html [Tag "h1" [("id", AttrStr "firstHeading")] [NavigableString "Outline"];
        Tag "div" [("class", AttrList ["mw-parser-output"])]
          [Tag "p" [] [NavigableString "Lead."];
           Tag "h2" [] [NavigableString "History"];
           Tag "p" [] [NavigableString "Past."];
           Tag "h2" [] [NavigableString "Culture"];
           Tag "p" [] [NavigableString "Arts."]]].

(** The parser on these pages. *)
Definition BeautifulSoup (content : string) : node :=
  if String.eqb content history_body then history_soup
  else if String.eqb content blank_body then blank_soup
  else if String.eqb content stub_body then stub_soup
  else if String.eqb content culture_body then culture_soup
  else if String.eqb content outline_body then outline_soup
  else Tag "[document]" [] [].

(** A web that serves the History page and answers every other request
    with an error; every write succeeds. *)
Definition history_web : World :=
  {| requests_get := fun _ u => if String.eqb u history_url then Some history_body else None;
     open_write := fun _ _ => WriteOk |}.

(** A web that serves the Blank page and the Stub page; every write
    succeeds. *)
Definition blank_web : World :=
  {| requests_get := fun _ u =>
       if String.eqb u blank_url then Some blank_body
       else if String.eqb u stub_url then Some stub_body
       else None;
     open_write := fun _ _ => WriteOk |}.

(** A disk on which no write succeeds. *)
Definition broken_disk : World :=
  {| requests_get := fun _ _ => None;
     open_write := fun _ _ => OpenFails |}.

(** A crawler in the middle of a run, with two visited URLs. *)
Definition midway : state :=
  {| start_url := history_url; directory := "pages"; max_pages := 10000;
     visited_urls := {[ history_url; rome_url ]}; url_queue := [stub_url];
     pages_processed := 2; files := ∅; clock := 4 |}.

Definition history_run : state * list event :=
  crawl BeautifulSoup urljoin history_web 10 (init history_url "pages" 10000 ∅ 0).

Definition blank_run : state * list event :=
  crawl BeautifulSoup urljoin blank_web 10 (init blank_url "pages" 10000 ∅ 0).

End Example.

(** ** The answers of the HTTP client *)

(** What [requests.get] gives: an exception of the transport, or a response
    with its status code and its text. *)
Inductive http_answer :=
| TransportError
| Response (status_code : Z) (body : string).

(** [response.raise_for_status()] raises for the status codes 400 to 599. *)
Definition raise_for_status (status_code : Z) : bool :=
  (400 <=? status_code) && (status_code <? 600).

(** The [try] block of [download_page]: the text of the response, [None]
    when [requests.get] or [raise_for_status] raises. *)
Definition response_text (a : http_answer) : option string :=
  match a with
  | TransportError => None
  | Response status_code body =>
      if raise_for_status status_code then None else Some body
  end.

(** The environment made of an HTTP server and a disk. *)
Definition http_world (http : nat -> string -> http_answer)
    (disk : nat -> string -> write_outcome) : World :=
  {| requests_get := fun t u => response_text (http t u);
     open_write := disk |}.

(** A fetch that fails: a transport error, or a status for which
    [raise_for_status] raises. *)
Definition fetch_fails (a : http_answer) : bool :=
  match a with
  | TransportError => true
  | Response status_code _ => raise_for_status status_code
  end.

(** A transport error or a status outside 200 to 299. *)
Definition non_2xx (a : http_answer) : bool :=
  match a with
  | TransportError => true
  | Response status_code _ => negb ((200 <=? status_code) && (status_code <? 300))
  end.

(** ** Extractions in a run *)

(** The iteration entered in [s] requests [u] and gets a page with a title
    heading, which it extracts. *)
Definition extracts (BeautifulSoup : string -> node) (W : World) (u : string)
    (s : state) : bool :=
  match url_queue s with
  | [] => false
  | v :: _ =>
      String.eqb v u
      && negb (bool_decide (u ∈ visited_urls s))
      && match requests_get W (clock s) u with
         | Some body =>
             PyStr.truthy body
             && match Soup.find_id "firstHeading" (BeautifulSoup body) with
                | Some _ => true
                | None => false
                end
         | None => false
         end
  end.

(** How many iterations of the loop request [u] and extract its page. *)
Fixpoint extraction_count (BeautifulSoup : string -> node)
    (urljoin : string -> string -> string) (W : World) (u : string)
    (fuel : nat) (s : state) : nat :=
  match fuel with
  | O => O
  | S n =>
      if running s then
        ((if extracts BeautifulSoup W u s then 1 else 0)
         + extraction_count BeautifulSoup urljoin W u n
             (fst (crawl_step BeautifulSoup urljoin W s)))%nat
      else O
  end.

(** ** A web where a page comes back at the second request *)

Module Flaky.

Definition rome_body : string :=
  "<html><body><h1 id='firstHeading'>Rome</h1></body></html>".

Definition rome_soup : node :=
  Example.html [Tag "h1" [("id", AttrStr "firstHeading")] [NavigableString "Rome"]].

Definition BeautifulSoup (content : string) : node :=
  if String.eqb content rome_body then rome_soup
  else Example.BeautifulSoup content.

(** The History page is always served; the request for the Rome page fails
    before time 3 and is served from then on.  Every write succeeds. *)
Definition web : World :=
  {| requests_get := fun t u =>
       if String.eqb u Example.history_url then Some Example.history_body
       else if String.eqb u Example.rome_url then
              if (3 <=? t)%nat then Some rome_body else None
            else None;
     open_write := fun _ _ => WriteOk |}.

Definition start : state := init Example.history_url "pages" 10000 ∅ 0.

Definition disk : nat -> string -> write_outcome := fun _ _ => WriteOk.

(** A server that answers 200 for the History page and 404 for the rest. *)
Definition not_found : nat -> string -> http_answer :=
  fun _ u =>
    if String.eqb u Example.history_url then Response 200 Example.history_body
    else Response 404 "Not Found".

(** A server that answers 300 (Multiple Choices) with the History page. *)
Definition multiple_choices : nat -> string -> http_answer :=
  fun _ u =>
    if String.eqb u Example.history_url then Response 300 Example.history_body
    else TransportError.

End Flaky.

(** ** The paths a crawler writes *)

Definition slash_free (s : string) : bool :=
  PyStr.all_chars (fun c => negb (Ascii.eqb c "/"%char)) s.

(** A directory name that is not empty and does not end with a slash, as
    those of [main]. *)
Definition plain_directory (d : string) : bool :=
  match PyStr.last_char d with
  | None => false
  | Some c => negb (Ascii.eqb c "/"%char)
  end.

(** The checkpoint of a directory, or the file of some title in it. *)
Definition crawler_path (dir p : string) : Prop :=
  p = progress_file dir \/ exists t, p = page_file_path dir t.

(** ** [run_crawler] and the configurations of [main] *)

Record config := {
  config_start_url : string;
  config_directory : string;
  config_max_pages : Z
}.

(** [run_crawler(config)]: build the crawler, then crawl. *)
Definition run_crawler (BeautifulSoup : string -> node)
    (urljoin : string -> string -> string) (W : World) (fuel : nat)
    (c : config) (fs : gmap string file) (t : nat) : state * list event :=
  crawl BeautifulSoup urljoin W fuel
    (init (config_start_url c) (config_directory c) (config_max_pages c) fs t).

(** The list [crawler_configs] of [main]; each entry is run in a thread of
    its own, which is not modelled. *)
Definition crawler_configs : list config :=
  [ {| config_start_url := "https://en.wiktionary.org/wiki/culture";
       config_directory := "../pages/culture_wiki";
       config_max_pages := 10000 |};
    {| config_start_url := "https://en.wikipedia.org/wiki/Politics";
       config_directory := "../pages/politics_wiki";
       config_max_pages := 10000 |};
    {| config_start_url := "https://en.wikipedia.org/wiki/History";
       config_directory := "../pages/history_wiki";
       config_max_pages := 10000 |} ].

(** Two configurations on one directory, and the files a run on the
    History web leaves there. *)
Definition history_config : config :=
  {| config_start_url := Example.history_url; config_directory := "pages";
     config_max_pages := 10000 |}.

Definition rome_config : config :=
  {| config_start_url := Example.rome_url; config_directory := "pages";
     config_max_pages := 10000 |}.

Definition saved_files : gmap string file :=
  {[ "pages/crawl_progress.json" := ProgressFile [Example.history_url] 1 ]}.

(** The links an iteration entered in [s] adds to the frontier: those of
    the page it gets, when that page has a title heading. *)
Definition discovered_links (BeautifulSoup : string -> node)
    (urljoin : string -> string -> string) (W : World) (s : state) : list string :=
  match url_queue s with
  | [] => []
  | u :: _ =>
      if bool_decide (u ∈ visited_urls s) then []
      else
        match requests_get W (clock s) u with
        | Some body =>
            if PyStr.truthy body then
              match Soup.find_id "firstHeading" (BeautifulSoup body) with
              | Some _ => Spec.outbound_links urljoin (visited_urls s) (BeautifulSoup body) u
              | None => []
              end
            else []
        | None => []
        end
  end.

(** Two records whose titles differ by an unsafe character. *)
Definition acdc_slash : page_data :=
  {| url := Example.history_url; title := "AC/DC"; paragraphs := [];
     links := []; table_of_contents := [] |}.

Definition acdc_colon : page_data :=
  {| url := Example.rome_url; title := "AC:DC"; paragraphs := [];
     links := []; table_of_contents := [] |}.

(** A record whose file name is that of the checkpoint. *)
Definition progress_page : page_data :=
  {| url := Example.stub_url; title := "crawl:progress"; paragraphs := [];
     links := []; table_of_contents := [] |}.

(** A web on which every request fails; every write succeeds. *)
Definition dead_web : World :=
  {| requests_get := fun _ _ => None;
     open_write := fun _ _ => WriteOk |}.

(** * Properties *)

(** ** Strings and paths *)

Lemma truthy_false_iff (s : string) : PyStr.truthy s = false <-> s = EmptyString.
Proof. destruct s; simpl; split; congruence. Qed.

Lemma truthy_true_iff (s : string) : PyStr.truthy s = true <-> s <> EmptyString.
Proof. destruct s; simpl; split; congruence. Qed.

Lemma file_name_of_length (t : string) :
  String.length (file_name_of t) = String.length t.
Proof.
  unfold file_name_of. induction t as [|c t IH]; simpl; [reflexivity|].
  now rewrite IH.
Qed.

Lemma file_name_of_get (t : string) (i : nat) :
  String.get i (file_name_of t)
  = option_map (fun c => if unsafe_char c then "_"%char else c) (String.get i t).
Proof.
  unfold file_name_of. revert i.
  induction t as [|c t IH]; intros i; simpl; [reflexivity|].
  destruct i as [|i]; simpl; [reflexivity | apply IH].
Qed.

Lemma file_name_of_safe (t : string) :
  PyStr.all_chars (fun c => negb (unsafe_char c)) (file_name_of t) = true.
Proof.
  unfold file_name_of. induction t as [|c t IH]; simpl; [reflexivity|].
  rewrite IH, andb_true_r.
  destruct (unsafe_char c) eqn:E; [reflexivity | now rewrite E].
Qed.

(** ** What each method leaves alone *)

Section Frames.

Variable BeautifulSoup : string -> node.
Variable urljoin : string -> string -> string.
Variable W : World.

Lemma same_crawler_refl s : same_crawler s s.
Proof. repeat split. Qed.

Lemma write_file_same path content s :
  same_crawler s (snd (write_file W path content s)).
Proof. unfold write_file. destruct (open_write _ _ _); repeat split. Qed.

Lemma write_file_ok path content s :
  fst (write_file W path content s) = true <-> open_write W (clock s) path = WriteOk.
Proof. unfold write_file. destruct (open_write _ _ _); simpl; split; congruence. Qed.

Lemma write_file_other path content s p :
  p <> path -> files (snd (write_file W path content s)) !! p = files s !! p.
Proof.
  intros Hp. unfold write_file.
  destruct (open_write _ _ _); simpl; try reflexivity;
    now rewrite lookup_insert_ne by congruence.
Qed.

Lemma save_progress_same s : same_crawler s (fst (save_progress W s)).
Proof.
  unfold save_progress.
  pose proof (write_file_same (progress_file (directory s))
    (ProgressFile (elements (visited_urls s)) (pages_processed s)) s) as H.
  destruct (write_file _ _ _ _) as [ok s']. exact H.
Qed.

Lemma save_progress_page_files s :
  page_files (directory s) (files (fst (save_progress W s)))
  = page_files (directory s) (files s).
Proof.
  unfold save_progress, write_file, page_files.
  destruct (open_write _ _ _); simpl; try reflexivity; apply delete_insert_eq.
Qed.

Lemma save_progress_events s :
  exists ok, snd (save_progress W s) = [EvSaveProgress ok].
Proof.
  unfold save_progress. destruct (write_file _ _ _ _) as [ok s']. now exists ok.
Qed.

Lemma save_periodically_same s : same_crawler s (fst (save_periodically W s)).
Proof.
  unfold save_periodically. destruct (_ =? _).
  - apply save_progress_same.
  - apply same_crawler_refl.
Qed.

Lemma save_periodically_page_files s :
  page_files (directory s) (files (fst (save_periodically W s)))
  = page_files (directory s) (files s).
Proof.
  unfold save_periodically. destruct (_ =? _).
  - apply save_progress_page_files.
  - reflexivity.
Qed.

Lemma save_periodically_stored s : stored_count (snd (save_periodically W s)) = 0%nat.
Proof.
  unfold save_periodically. destruct (_ =? _); [|reflexivity].
  destruct (save_progress_events s) as [ok ->]. reflexivity.
Qed.

Lemma save_periodically_downloads u s : downloads u (snd (save_periodically W s)) = 0%nat.
Proof.
  unfold save_periodically. destruct (_ =? _); [|reflexivity].
  destruct (save_progress_events s) as [ok ->]. reflexivity.
Qed.

(** [store_page] changes the counter and the files only, and adds to the
    counter the number of records it wrote. *)
Lemma store_page_frame data s :
  let s' := fst (store_page W data s) in
  start_url s' = start_url s /\ directory s' = directory s
  /\ max_pages s' = max_pages s /\ visited_urls s' = visited_urls s
  /\ url_queue s' = url_queue s
  /\ pages_processed s' = pages_processed s + Z.of_nat (stored_count (snd (store_page W data s)))
  /\ (stored_count (snd (store_page W data s)) <= 1)%nat
  /\ forall u, downloads u (snd (store_page W data s)) = 0%nat.
Proof.
  unfold store_page, stored_count, downloads.
  destruct (negb (PyStr.truthy (title data))); simpl.
  { repeat split; auto; lia. }
  pose proof (write_file_same (page_file_path (directory s) (title data)) (PageFile data) s) as H.
  destruct (write_file W (page_file_path (directory s) (title data)) (PageFile data) s)
    as [[|] s1]; simpl in *;
    destruct H as (? & ? & ? & ? & ? & ?); repeat split; auto; lia.
Qed.

Lemma parse_page_frame u content s :
  let s' := snd (parse_page BeautifulSoup urljoin u content s) in
  start_url s' = start_url s /\ directory s' = directory s
  /\ max_pages s' = max_pages s /\ visited_urls s' = visited_urls s
  /\ pages_processed s' = pages_processed s /\ files s' = files s
  /\ clock s' = clock s.
Proof.
  unfold parse_page. destruct (Soup.find_id _ _); repeat split.
Qed.

End Frames.

(** ** One iteration of the loop *)

Section Step.

Variable BeautifulSoup : string -> node.
Variable urljoin : string -> string -> string.
Variable W : World.

Local Abbreviation step := (crawl_step BeautifulSoup urljoin W).
Local Abbreviation loop := (crawl_loop BeautifulSoup urljoin W).
Local Abbreviation parse := (parse_page BeautifulSoup urljoin).

Lemma crawl_step_visited s u q :
  url_queue s = u :: q -> u ∈ visited_urls s ->
  step s = (set_url_queue q s, []).
Proof.
  intros Hq Hv. unfold crawl_step. rewrite Hq. simpl.
  now rewrite bool_decide_eq_true_2.
Qed.

Lemma crawl_step_fetch_failed s u q :
  url_queue s = u :: q -> u ∉ visited_urls s ->
  requests_get W (clock s) u = None ->
  step s = (tick (set_url_queue q s), [EvDownload u]).
Proof.
  intros Hq Hv Hget. unfold crawl_step. rewrite Hq. simpl.
  rewrite bool_decide_eq_false_2 by exact Hv.
  now rewrite Hget.
Qed.

Lemma crawl_step_empty_body s u q :
  url_queue s = u :: q -> u ∉ visited_urls s ->
  requests_get W (clock s) u = Some EmptyString ->
  step s = (tick (set_url_queue q s), [EvDownload u]).
Proof.
  intros Hq Hv Hget. unfold crawl_step. rewrite Hq. simpl.
  rewrite bool_decide_eq_false_2 by exact Hv.
  now rewrite Hget.
Qed.

(** The iteration on a page that came back, written with projections. *)
Lemma crawl_step_page s u q body :
  url_queue s = u :: q -> u ∉ visited_urls s ->
  requests_get W (clock s) u = Some body -> PyStr.truthy body = true ->
  let s0 := tick (set_url_queue q s) in
  let parsed := parse u body s0 in
  let stored :=
    match fst parsed with
    | Some d =>
        let r := store_page W d (snd parsed) in
        (set_visited_urls (visited_urls (fst r) ∪ {[u]}) (fst r), snd r)
    | None => (snd parsed, [])
    end in
  let saved := save_periodically W (fst stored) in
  step s = (fst saved, EvDownload u :: snd stored ++ snd saved).
Proof.
  intros Hq Hv Hget Hbody. unfold crawl_step. rewrite Hq. simpl.
  rewrite bool_decide_eq_false_2 by exact Hv.
  rewrite Hget, Hbody. simpl.
  destruct (parse_page BeautifulSoup urljoin u body (tick (set_url_queue q s))) as [[d|] s1]; simpl.
  - destruct (store_page W d s1) as [s2 e2]; simpl.
    destruct (save_periodically W _) as [s3 e3]; reflexivity.
  - destruct (save_periodically W s1) as [s3 e3]; reflexivity.
Qed.

Lemma store_page_events data s :
  snd (store_page W data s) = []
  \/ snd (store_page W data s) = [EvStored (page_file_path (directory s) (title data))].
Proof.
  unfold store_page. destruct (negb _); [now left|].
  destruct (write_file W _ _ s) as [[|] s1]; simpl; auto.
Qed.

Lemma save_periodically_events s :
  (pages_processed s mod 100 = 0 /\ exists ok, snd (save_periodically W s) = [EvSaveProgress ok])
  \/ (pages_processed s mod 100 <> 0 /\ snd (save_periodically W s) = []).
Proof.
  unfold save_periodically.
  destruct (Z.eqb_spec (pages_processed s mod 100) 0) as [E|E].
  - left. split; [exact E | apply save_progress_events].
  - right. split; [exact E | reflexivity].
Qed.

Lemma downloads_other u v : u <> v -> downloads v [EvDownload u] = 0%nat.
Proof.
  intros Hne. unfold downloads. simpl.
  destruct (String.eqb_spec v u); [congruence | reflexivity].
Qed.

Lemma downloads_app u l1 l2 : downloads u (l1 ++ l2) = (downloads u l1 + downloads u l2)%nat.
Proof. unfold downloads. now rewrite List.filter_app, length_app. Qed.

Lemma stored_count_app l1 l2 : stored_count (l1 ++ l2) = (stored_count l1 + stored_count l2)%nat.
Proof. unfold stored_count. now rewrite List.filter_app, length_app. Qed.

Lemma save_count_app l1 l2 : save_count (l1 ++ l2) = (save_count l1 + save_count l2)%nat.
Proof. unfold save_count. now rewrite List.filter_app, length_app. Qed.

Lemma save_count_nosave l : (forall e, In e l -> is_save e = false) -> save_count l = 0%nat.
Proof.
  unfold save_count. induction l as [|e l IH]; intros H; simpl; [reflexivity|].
  rewrite (H e) by now left. apply IH. intros e' He'. apply H. now right.
Qed.

Lemma crawl_step_summary s : step_summary W s (step s).
Proof.
  unfold step_summary, fetches_page.
  destruct (url_queue s) as [|u q] eqn:Hq.
  { unfold crawl_step. rewrite Hq. simpl.
    split; [set_solver|]. split; [reflexivity|]. split; [reflexivity|].
    exists [], []. unfold stored_count; simpl.
    repeat split; auto; try lia; try tauto; discriminate. }
  destruct (decide (u ∈ visited_urls s)) as [Hv|Hv].
  { rewrite (crawl_step_visited s u q Hq Hv). simpl.
    rewrite bool_decide_eq_true_2 by exact Hv. simpl.
    split; [set_solver|]. split; [reflexivity|]. split; [reflexivity|].
    exists [], []. unfold stored_count; simpl.
    repeat split; auto; try lia; try tauto; discriminate. }
  rewrite bool_decide_eq_false_2 by exact Hv. simpl negb. rewrite andb_true_l.
  destruct (requests_get W (clock s) u) as [body|] eqn:Hget.
  2:{ rewrite (crawl_step_fetch_failed s u q Hq Hv Hget). simpl.
      split; [set_solver|]. split.
      - intros v Hin. apply downloads_other. intros ->. contradiction.
      - split; [reflexivity|].
        exists [EvDownload u], []. unfold stored_count; simpl.
        repeat split; auto; try lia; try discriminate.
        intros e [<-|[]]. reflexivity. }
  destruct (PyStr.truthy body) eqn:Hbody.
  2:{ apply truthy_false_iff in Hbody; subst body.
      rewrite (crawl_step_empty_body s u q Hq Hv Hget). simpl.
      split; [set_solver|]. split.
      - intros v Hin. apply downloads_other. intros ->. contradiction.
      - split; [reflexivity|].
        exists [EvDownload u], []. unfold stored_count; simpl.
        repeat split; auto; try lia; try discriminate.
        intros e [<-|[]]. reflexivity. }
  rewrite (crawl_step_page s u q body Hq Hv Hget Hbody). cbv zeta. simpl fst. simpl snd.
  set (s0 := tick (set_url_queue q s)).
  pose proof (parse_page_frame BeautifulSoup urljoin u body s0) as Hp. cbv zeta in Hp.
  destruct Hp as (_ & _ & _ & Hpv & Hpp & _ & _).
  set (parsed := parse_page BeautifulSoup urljoin u body s0) in *.
  set (stored := match fst parsed with
                 | Some d =>
                     (set_visited_urls
                        (visited_urls (fst (store_page W d (snd parsed))) ∪ {[u]})
                        (fst (store_page W d (snd parsed))),
                      snd (store_page W d (snd parsed)))
                 | None => (snd parsed, [])
                 end).
  assert (Hst : visited_urls s ⊆ visited_urls (fst stored)
                /\ pages_processed (fst stored)
                   = pages_processed s + Z.of_nat (stored_count (snd stored))
                /\ (stored_count (snd stored) <= 1)%nat
                /\ (forall v, downloads v (snd stored) = 0%nat)
                /\ (forall e, In e (snd stored) -> is_save e = false)).
  { subst stored. destruct (fst parsed) as [d|].
    - pose proof (store_page_frame W d (snd parsed)) as Hs. cbv zeta in Hs.
      destruct Hs as (_ & _ & _ & Hsv & _ & Hsp & Hle & Hd).
      simpl. rewrite Hsv, Hpv, Hsp, Hpp. simpl.
      repeat split; auto; [apply union_subseteq_l|].
      intros e He. destruct (store_page_events d (snd parsed)) as [E|E];
        rewrite E in He; simpl in He; [tauto|]. destruct He as [<-|[]]. reflexivity.
    - simpl. rewrite Hpv, Hpp. simpl.
      unfold stored_count, downloads; simpl. repeat split; auto; try lia; tauto. }
  destruct Hst as (Hsv & Hsp & Hle & Hd & Hns).
  pose proof (save_periodically_same W (fst stored)) as (_ & _ & _ & Hcv & _ & Hcp).
  change (EvDownload u :: snd stored ++ snd (save_periodically W (fst stored)))
    with ((EvDownload u :: snd stored) ++ snd (save_periodically W (fst stored))).
  assert (Hpre : forall e, In e (EvDownload u :: snd stored) -> is_save e = false).
  { intros e [<-|He]; [reflexivity | now apply Hns]. }
  split; [rewrite Hcv; exact Hsv|]. split.
  { intros v Hin.
    change (EvDownload u :: snd stored) with ([EvDownload u] ++ snd stored).
    rewrite !downloads_app, Hd, save_periodically_downloads.
    rewrite downloads_other; [reflexivity|]. intros ->. contradiction. }
  split.
  { rewrite save_count_app, (save_count_nosave _ Hpre), Hcp. simpl.
    destruct (save_periodically_events (fst stored)) as [[Hm [ok E]]|[Hm E]]; rewrite E.
    - rewrite Hm. reflexivity.
    - destruct (Z.eqb_spec (pages_processed (fst stored) mod 100) 0); [contradiction|reflexivity]. }
  exists (EvDownload u :: snd stored), (snd (save_periodically W (fst stored))).
  assert (Hc : stored_count (EvDownload u :: snd stored) = stored_count (snd stored))
    by reflexivity.
  rewrite Hc, Hcp. repeat split; auto.
  - destruct (save_periodically_events (fst stored)) as [[Hm [ok E]]|[Hm E]].
    + right. exists ok. split; [exact E | exact Hm].
    + now left.
  - intros _ Hm. destruct (save_periodically_events (fst stored)) as [[_ [ok E]]|[Hm' E]].
    + rewrite E. discriminate.
    + contradiction.
Qed.

End Step.

(** ** The loop *)

Section Loop.

Variable BeautifulSoup : string -> node.
Variable urljoin : string -> string -> string.
Variable W : World.

Local Abbreviation step := (crawl_step BeautifulSoup urljoin W).
Local Abbreviation loop := (crawl_loop BeautifulSoup urljoin W).

Lemma crawl_loop_0 s : loop 0 s = (s, []).
Proof. reflexivity. Qed.

Lemma crawl_loop_S n s :
  loop (S n) s
  = if running s
    then (fst (loop n (fst (step s))), snd (step s) ++ snd (loop n (fst (step s))))
    else (s, []).
Proof.
  simpl. destruct (running s); [|reflexivity].
  destruct (step s) as [s1 e1]. simpl. destruct (loop n s1) as [s2 e2]. reflexivity.
Qed.

Lemma crawl_loop_stopped n s : running s = false -> loop n s = (s, []).
Proof. intros H. destruct n; [reflexivity|]. now rewrite crawl_loop_S, H. Qed.

(** A URL of the visited set stays in it and is never requested. *)
Lemma crawl_loop_visited n : forall s u,
  u ∈ visited_urls s ->
  downloads u (snd (loop n s)) = 0%nat /\ u ∈ visited_urls (fst (loop n s)).
Proof.
  induction n as [|n IH]; intros s u Hu; [now split|].
  rewrite crawl_loop_S. destruct (running s); [|now split]. simpl.
  destruct (crawl_step_summary BeautifulSoup urljoin W s) as (Hsub & Hdl & _).
  destruct (IH (fst (step s)) u) as [Hd Hin]; [now apply Hsub|].
  split; [|exact Hin]. now rewrite downloads_app, Hdl, Hd.
Qed.

(** The counter grows by the number of records written. *)
Lemma crawl_loop_counter n : forall s,
  pages_processed (fst (loop n s))
  = pages_processed s + Z.of_nat (stored_count (snd (loop n s))).
Proof.
  induction n as [|n IH]; intros s; [unfold stored_count; simpl; lia|].
  rewrite crawl_loop_S. destruct (running s); [|unfold stored_count; simpl; lia]. simpl.
  destruct (crawl_step_summary BeautifulSoup urljoin W s)
    as (_ & _ & _ & pre & ck & E & _ & _ & Hpp & Hck & _).
  rewrite IH, Hpp, E, !stored_count_app.
  destruct Hck as [->|[ok [-> _]]].
  - change (stored_count []) with 0%nat. lia.
  - change (stored_count [EvSaveProgress ok]) with 0%nat. lia.
Qed.

Lemma gaps_from_nosave pre : forall since l,
  (forall e, In e pre -> is_save e = false) ->
  gaps_from since (pre ++ l)
  = gaps_from (option_map (fun k => (k + stored_count pre)%nat) since) l.
Proof.
  induction pre as [|e pre IH]; intros since l H; simpl.
  { destruct since; simpl; [|reflexivity].
    unfold stored_count; simpl. now rewrite Nat.add_0_r. }
  assert (H' : forall e', In e' pre -> is_save e' = false)
    by (intros e' He'; apply H; now right).
  destruct e as [u|p|ok].
  - rewrite IH by exact H'. reflexivity.
  - rewrite IH by exact H'. destruct since; simpl; [|reflexivity].
    unfold stored_count; simpl. f_equal. f_equal. lia.
  - specialize (H (EvSaveProgress ok) (or_introl eq_refl)). discriminate.
Qed.

(** Between two consecutive checkpoints of the loop the counter moved from
    one multiple of 100 to the same or to the next. *)
Lemma crawl_loop_gaps n : forall s since,
  gap_inv since (pages_processed s) ->
  Forall (fun g => g = 0 \/ g = 100)%nat (gaps_from since (snd (loop n s))).
Proof.
  induction n as [|n IH]; intros s since Hinv; [constructor|].
  rewrite crawl_loop_S. destruct (running s); [|constructor]. simpl.
  destruct (crawl_step_summary BeautifulSoup urljoin W s)
    as (_ & _ & _ & pre & ck & E & Hpre & Hle & Hpp & Hck & Hforce).
  rewrite E, <- app_assoc, gaps_from_nosave by exact Hpre.
  set (s1 := fst (step s)) in *.
  destruct Hck as [->|[ok [-> Hm]]].
  - simpl. apply IH.
    destruct since as [k|]; simpl in *; [|exact I].
    destruct Hinv as [Hk Hmod].
    assert (Hmod' : (pages_processed s1 - Z.of_nat (k + stored_count pre)) mod 100 = 0).
    { replace (pages_processed s1 - Z.of_nat (k + stored_count pre))
        with (pages_processed s - Z.of_nat k) by lia. exact Hmod. }
    split; [|exact Hmod'].
    destruct (Nat.eq_dec (stored_count pre) 1%nat) as [H1|H1]; [|lia].
    destruct (Nat.eq_dec (k + stored_count pre)%nat 100%nat) as [H100|H100]; [|lia].
    exfalso. apply (Hforce H1); [|reflexivity].
    rewrite H100 in Hmod'. clear - Hmod'.
    revert Hmod'. generalize (pages_processed s1). intros z Hz.
    Z.div_mod_to_equations. lia.
  - simpl. destruct since as [k|]; simpl in *.
    + destruct Hinv as [Hk Hmod]. constructor.
      * assert (Hz : Z.of_nat (k + stored_count pre) mod 100 = 0).
        { replace (Z.of_nat (k + stored_count pre))
            with (pages_processed s1 - (pages_processed s - Z.of_nat k)) by lia.
          clear - Hm Hmod. revert Hm Hmod.
          generalize (pages_processed s1) (pages_processed s - Z.of_nat k).
          intros a b Ha Hb. Z.div_mod_to_equations. lia. }
        assert (Hb : (k + stored_count pre <= 100)%nat) by lia.
        clear - Hz Hb. revert Hz Hb. generalize (k + stored_count pre)%nat.
        intros m Hz Hb. Z.div_mod_to_equations. lia.
      * apply IH. simpl. split; [lia|]. now rewrite Z.sub_0_r.
    + apply IH. simpl. split; [lia|]. now rewrite Z.sub_0_r.
Qed.

Lemma crawl_loop_gaps_all n s :
  Forall (fun g => g = 0 \/ g = 100)%nat (gaps (snd (loop n s))).
Proof. apply crawl_loop_gaps. exact I. Qed.

(** [gaps] lists the count of every stretch between consecutive
    checkpoints. *)
Lemma gaps_from_skip l1 : forall since l2 x,
  (forall since', In x (gaps_from since' l2)) ->
  In x (gaps_from since (l1 ++ l2)).
Proof.
  induction l1 as [|e l1 IH]; intros since l2 x H; simpl; [apply H|].
  destruct e as [u|p|ok].
  - now apply IH.
  - now apply IH.
  - destruct since; [right|]; now apply IH.
Qed.

Lemma gaps_between l1 a mid b l3 since :
  (forall e, In e mid -> is_save e = false) ->
  In (stored_count mid)
     (gaps_from since (l1 ++ EvSaveProgress a :: mid ++ EvSaveProgress b :: l3)).
Proof.
  intros Hmid. apply gaps_from_skip. intros since'.
  assert (H : In (stored_count mid)
                (gaps_from (Some 0%nat) (mid ++ EvSaveProgress b :: l3))).
  { rewrite gaps_from_nosave by exact Hmid. simpl. now left. }
  simpl. destruct since'; [right|]; exact H.
Qed.

End Loop.

(** ** The whole crawl *)

Lemma crawl_unfold BS uj W n s :
  crawl BS uj W n s
  = (fst (save_progress W (fst (crawl_loop BS uj W n s))),
     snd (crawl_loop BS uj W n s) ++ snd (save_progress W (fst (crawl_loop BS uj W n s)))).
Proof.
  unfold crawl. destruct (crawl_loop BS uj W n s) as [s1 e1]. simpl.
  destruct (save_progress W s1) as [s2 e2]. reflexivity.
Qed.

(** Over a whole run the counter grows by the number of page records
    written. *)
Lemma crawl_counter BS uj W n s :
  pages_processed (fst (crawl BS uj W n s))
  = pages_processed s + Z.of_nat (stored_count (snd (crawl BS uj W n s))).
Proof.
  rewrite crawl_unfold. simpl.
  destruct (save_progress_same W (fst (crawl_loop BS uj W n s))) as (_ & _ & _ & _ & _ & ->).
  rewrite stored_count_app, crawl_loop_counter.
  destruct (save_progress_events W (fst (crawl_loop BS uj W n s))) as [ok ->].
  change (stored_count [EvSaveProgress ok]) with 0%nat. lia.
Qed.

(** The iteration that gets a page with a title heading requests its URL
    once and leaves it in the visited set. *)
Lemma crawl_step_marks_visited BS uj W s u q body :
  url_queue s = u :: q -> u ∉ visited_urls s ->
  requests_get W (clock s) u = Some body -> body <> EmptyString ->
  Soup.find_id "firstHeading" (BS body) <> None ->
  u ∈ visited_urls (fst (crawl_step BS uj W s))
  /\ downloads u (snd (crawl_step BS uj W s)) = 1%nat.
Proof.
  intros Hq Hv Hget Hbody Htitle.
  apply truthy_true_iff in Hbody.
  rewrite (crawl_step_page BS uj W s u q body Hq Hv Hget Hbody). cbv zeta. simpl fst. simpl snd.
  set (s0 := tick (set_url_queue q s)).
  assert (Hparsed : exists d s1, parse_page BS uj u body s0 = (Some d, s1)).
  { unfold parse_page. destruct (Soup.find_id "firstHeading" (BS body)); [|congruence].
    eexists _, _. reflexivity. }
  destruct Hparsed as (d & s1 & ->). simpl fst. simpl snd.
  pose proof (store_page_frame W d s1) as Hs. cbv zeta in Hs.
  destruct Hs as (_ & _ & _ & _ & _ & _ & _ & Hd).
  set (s2 := set_visited_urls (visited_urls (fst (store_page W d s1)) ∪ {[u]})
               (fst (store_page W d s1))).
  pose proof (save_periodically_same W s2) as (_ & _ & _ & Hcv & _ & _).
  split.
  - rewrite Hcv. subst s2. simpl. apply elem_of_union. right. now apply elem_of_singleton.
  - change (EvDownload u :: snd (store_page W d s1) ++ snd (save_periodically W s2))
      with ([EvDownload u] ++ snd (store_page W d s1) ++ snd (save_periodically W s2)).
    rewrite !downloads_app, Hd, save_periodically_downloads.
    unfold downloads. simpl. now rewrite String.eqb_refl.
Qed.

(** C1, as stated, fails: on a web where the History page links twice to
    the Rome page and the request for Rome fails, Rome is requested twice in
    one crawl. *)
Lemma url_fetched_twice :
  ~ (forall BS uj W fuel start dir max fs u,
        (downloads u (snd (crawl BS uj W fuel (init start dir max fs 0))) <= 1)%nat).
Proof.
  intros H.
  specialize (H Example.BeautifulSoup Example.urljoin Example.history_web 10%nat
                Example.history_url "pages" 10000 ∅ Example.rome_url).
  vm_compute in H. lia.
Qed.

Lemma crawl_loop_add BS uj W m : forall k s,
  crawl_loop BS uj W (m + k) s
  = (fst (crawl_loop BS uj W k (fst (crawl_loop BS uj W m s))),
     snd (crawl_loop BS uj W m s)
     ++ snd (crawl_loop BS uj W k (fst (crawl_loop BS uj W m s)))).
Proof.
  induction m as [|m IH]; intros k s.
  { simpl. now destruct (crawl_loop BS uj W k s). }
  change (S m + k)%nat with (S (m + k)). rewrite !crawl_loop_S.
  destruct (running s) eqn:Hrun.
  - rewrite IH. cbn [fst snd]. now rewrite app_assoc.
  - cbn [fst snd]. now rewrite (crawl_loop_stopped BS uj W k s Hrun).
Qed.

Lemma extracts_true BS W u s :
  extracts BS W u s = true ->
  exists q body,
    url_queue s = u :: q /\ (u ∉ visited_urls s)
    /\ requests_get W (clock s) u = Some body /\ body <> EmptyString
    /\ Soup.find_id "firstHeading" (BS body) <> None.
Proof.
  unfold extracts. destruct (url_queue s) as [|v q]; [discriminate|].
  intros H. apply andb_true_iff in H. destruct H as [H Hpage].
  apply andb_true_iff in H. destruct H as [Hv Hnot].
  apply String.eqb_eq in Hv. subst v.
  apply negb_true_iff in Hnot. apply bool_decide_eq_false in Hnot.
  destruct (requests_get W (clock s) u) as [body|]; [|discriminate].
  apply andb_true_iff in Hpage. destruct Hpage as [Hbody Htitle].
  exists q, body. repeat split; auto.
  - now apply truthy_true_iff.
  - destruct (Soup.find_id "firstHeading" (BS body)); [discriminate | discriminate].
Qed.

Lemma extracts_visited BS W u s : u ∈ visited_urls s -> extracts BS W u s = false.
Proof.
  intros Hu. unfold extracts. destruct (url_queue s) as [|v q]; [reflexivity|].
  rewrite bool_decide_eq_true_2 by exact Hu. simpl. now rewrite andb_false_r.
Qed.

Lemma extraction_count_visited BS uj W u n : forall s,
  u ∈ visited_urls s -> extraction_count BS uj W u n s = 0%nat.
Proof.
  induction n as [|n IH]; intros s Hu; [reflexivity|]. simpl.
  destruct (running s); [|reflexivity].
  rewrite (extracts_visited BS W u s Hu), IH; [reflexivity|].
  destruct (crawl_step_summary BS uj W s) as (Hsub & _). now apply Hsub.
Qed.

Lemma extraction_count_le_1 BS uj W u n : forall s,
  (extraction_count BS uj W u n s <= 1)%nat.
Proof.
  induction n as [|n IH]; intros s; [simpl; lia|]. simpl.
  destruct (running s); [|lia].
  destruct (extracts BS W u s) eqn:E.
  - destruct (extracts_true BS W u s E) as (q & body & Hq & Hv & Hget & Hbody & Htitle).
    destruct (crawl_step_marks_visited BS uj W s u q body Hq Hv Hget Hbody Htitle) as [Hin _].
    rewrite (extraction_count_visited BS uj W u n _ Hin). lia.
  - specialize (IH (fst (crawl_step BS uj W s))). lia.
Qed.

(** C1, amended: the page of a URL is fetched and extracted at most once in
    a crawl.  A URL of the visited set is never requested, in the loop or
    after it, and stays in the set; the iteration that requests a URL and
    extracts its page puts it in the visited set; so the number of
    iterations that fetch and extract a given URL is at most one, and after
    such an iteration the URL is not requested again, however often it was
    put in the frontier: the requests for it over the whole crawl are those
    made before that iteration and this one.  The test against the visited
    set comes after the dequeue and before the request. *)
Theorem visited_url_never_fetched BS uj W n s u :
  (u ∈ visited_urls s ->
   downloads u (snd (crawl BS uj W n s)) = 0%nat
   /\ u ∈ visited_urls (fst (crawl BS uj W n s)))
  /\ (extraction_count BS uj W u n s <= 1)%nat
  /\ (forall m k,
        running (fst (crawl_loop BS uj W m s)) = true ->
        extracts BS W u (fst (crawl_loop BS uj W m s)) = true ->
        u ∈ visited_urls (fst (crawl_loop BS uj W (S m) s))
        /\ downloads u (snd (crawl BS uj W (m + S k) s))
           = S (downloads u (snd (crawl_loop BS uj W m s)))).
Proof.
  split; [|split; [apply extraction_count_le_1|]].
  - intros Hu. rewrite crawl_unfold. simpl.
    destruct (crawl_loop_visited BS uj W n s u Hu) as [Hd Hin].
    destruct (save_progress_same W (fst (crawl_loop BS uj W n s))) as (_ & _ & _ & -> & _ & _).
    destruct (save_progress_events W (fst (crawl_loop BS uj W n s))) as [ok ->].
    split; [|exact Hin]. now rewrite downloads_app, Hd.
  - intros m k Hrun E.
    set (s1 := fst (crawl_loop BS uj W m s)) in *.
    destruct (extracts_true BS W u s1 E) as (q & body & Hq & Hv & Hget & Hbody & Htitle).
    destruct (crawl_step_marks_visited BS uj W s1 u q body Hq Hv Hget Hbody Htitle)
      as [Hin H1].
    split.
    + replace (S m) with (m + 1)%nat by lia. rewrite crawl_loop_add. cbn [fst].
      fold s1. rewrite crawl_loop_S, Hrun. cbn [fst]. exact Hin.
    + rewrite crawl_unfold, crawl_loop_add. cbn [fst snd]. fold s1.
      rewrite crawl_loop_S, Hrun. cbn [fst snd].
      destruct (crawl_loop_visited BS uj W k _ u Hin) as [Hd _].
      destruct (save_progress_events W
                  (fst (crawl_loop BS uj W k (fst (crawl_step BS uj W s1))))) as [ok ->].
      rewrite !downloads_app, H1, Hd.
      change (downloads u [EvSaveProgress ok]) with 0%nat. lia.
Qed.

Lemma visited_url_never_fetched_witness :
  downloads Example.history_url
    (snd (crawl Example.BeautifulSoup Example.urljoin Example.history_web 3
            (init Example.rome_url "pages" 10000
               {[ "pages/crawl_progress.json" := ProgressFile [Example.history_url] 1 ]} 0)))
  = 0%nat
  /\ (Example.rome_url
        ∈ visited_urls (fst (crawl_loop Flaky.BeautifulSoup Example.urljoin Flaky.web 3
                               Flaky.start))
      /\ downloads Example.rome_url
           (snd (crawl Flaky.BeautifulSoup Example.urljoin Flaky.web (2 + 5) Flaky.start))
         = S (downloads Example.rome_url
                (snd (crawl_loop Flaky.BeautifulSoup Example.urljoin Flaky.web 2
                        Flaky.start)))).
Proof.
  split.
  - apply (visited_url_never_fetched Example.BeautifulSoup Example.urljoin
             Example.history_web 3
             (init Example.rome_url "pages" 10000
                {[ "pages/crawl_progress.json" := ProgressFile [Example.history_url] 1 ]} 0)
             Example.history_url).
    vm_compute. reflexivity.
  - apply (proj2 (proj2 (visited_url_never_fetched Flaky.BeautifulSoup Example.urljoin
                           Flaky.web 0 Flaky.start Example.rome_url)) 2%nat 4%nat).
    + vm_compute. reflexivity.
    + vm_compute. reflexivity.
Defined.

(** ** Checkpoints inside the loop *)

(** C9, as stated, fails: the Blank page has an empty title and the Stub
    page has no title heading, so the two iterations store nothing, the
    counter stays at 0, and each iteration writes a checkpoint: two
    consecutive checkpoints with no stored page in between. *)
Lemma consecutive_checkpoints_without_store :
  ~ (forall BS uj W n s l1 a mid b l3,
        snd (crawl_loop BS uj W n s) = l1 ++ EvSaveProgress a :: mid ++ EvSaveProgress b :: l3 ->
        (forall e, In e mid -> is_save e = false) ->
        stored_count mid = 100%nat).
Proof.
  intros H.
  specialize (H Example.BeautifulSoup Example.urljoin Example.blank_web 10%nat
                (init Example.blank_url "pages" 10000 ∅ 0)
                [EvDownload Example.blank_url] true
                [EvDownload Example.stub_url] true []).
  assert (Hgap : stored_count [EvDownload Example.stub_url] = 100%nat).
  { apply H.
    - vm_compute. reflexivity.
    - intros e [<-|[]]. reflexivity. }
  vm_compute in Hgap. discriminate.
Qed.

(** C9, amended: an iteration writes a checkpoint exactly when it got a page
    with a non-empty body and the counter is a multiple of 100 at its end,
    whether or not it stored a record; so between two consecutive checkpoints
    of the loop either no record or exactly 100 records are stored. *)
Theorem checkpoint_every_hundred BS uj W n s :
  save_count (snd (crawl_step BS uj W s))
  = (if fetches_page W s && (pages_processed (fst (crawl_step BS uj W s)) mod 100 =? 0)
     then 1%nat else 0%nat)
  /\ (forall l1 a mid b l3,
        snd (crawl_loop BS uj W n s) = l1 ++ EvSaveProgress a :: mid ++ EvSaveProgress b :: l3 ->
        (forall e, In e mid -> is_save e = false) ->
        stored_count mid = 0%nat \/ stored_count mid = 100%nat).
Proof.
  split.
  - now destruct (crawl_step_summary BS uj W s) as (_ & _ & H & _).
  - intros l1 a mid b l3 E Hmid.
    pose proof (crawl_loop_gaps_all BS uj W n s) as Hall.
    unfold gaps in Hall. rewrite E in Hall. rewrite Forall_forall in Hall.
    apply Hall. apply list_elem_of_In. now apply gaps_between.
Qed.

Lemma checkpoint_every_hundred_witness :
  stored_count [EvDownload Example.stub_url] = 0%nat
  \/ stored_count [EvDownload Example.stub_url] = 100%nat.
Proof.
  apply (proj2 (checkpoint_every_hundred Example.BeautifulSoup Example.urljoin
                  Example.blank_web 10 (init Example.blank_url "pages" 10000 ∅ 0))
           [EvDownload Example.blank_url] true [EvDownload Example.stub_url] true []).
  - vm_compute. reflexivity.
  - intros e [<-|[]]. reflexivity.
Defined.

(** ** The counter across a restart *)

(** C2 at a failing input.  The run on the Blank web writes no page record:
    the only file it leaves is the checkpoint, which lists one visited URL
    and a counter of 0.  A crawler started on these files has a counter
    of 1. *)
Theorem restart_counts_unstored_page :
  stored_count (snd Example.blank_run) = 0%nat
  /\ map_to_list (files (fst Example.blank_run))
     = [("pages/crawl_progress.json", ProgressFile [Example.blank_url] 0)]
  /\ pages_processed (fst Example.blank_run) = 0
  /\ pages_processed
       (init Example.blank_url "pages" 10000 (files (fst Example.blank_run)) 0) = 1.
Proof. vm_compute. repeat split. Qed.

(** ** Failed fetches and pages without a title *)

(** C6, as stated, fails twice.  A response with status 300 and the text of
    the History page is not a failure for [raise_for_status]: the page is
    parsed, stored and its URL marked visited.  And a URL whose request
    fails is requested again in the same run when the frontier holds it
    twice: on the server that answers 404 for the Rome page, after the
    History page, which links to it twice, Rome is requested two times. *)
Lemma non_2xx_or_queued_twice :
  ~ (forall BS uj http disk s u q,
        url_queue s = u :: q -> u ∉ visited_urls s ->
        non_2xx (http (clock s) u) = true ->
        visited_urls (fst (crawl_step BS uj (http_world http disk) s)) = visited_urls s
        /\ pages_processed (fst (crawl_step BS uj (http_world http disk) s))
           = pages_processed s)
  /\ ~ (forall BS uj http disk n s u q,
          url_queue s = u :: q -> u ∉ visited_urls s ->
          non_2xx (http (clock s) u) = true ->
          (downloads u (snd (crawl BS uj (http_world http disk) n s)) <= 1)%nat).
Proof.
  split.
  - intros H.
    specialize (H Example.BeautifulSoup Example.urljoin Flaky.multiple_choices Flaky.disk
                  Flaky.start Example.history_url []).
    destruct H as [_ Hpp]; [reflexivity | vm_compute; discriminate | reflexivity |].
    vm_compute in Hpp. discriminate Hpp.
  - intros H.
    specialize (H Example.BeautifulSoup Example.urljoin Flaky.not_found Flaky.disk 5%nat
                  (fst (crawl_step Example.BeautifulSoup Example.urljoin
                          (http_world Flaky.not_found Flaky.disk) Flaky.start))
                  Example.rome_url [Example.rome_url]).
    assert (Hle : (downloads Example.rome_url
                     (snd (crawl Example.BeautifulSoup Example.urljoin
                             (http_world Flaky.not_found Flaky.disk) 5
                             (fst (crawl_step Example.BeautifulSoup Example.urljoin
                                     (http_world Flaky.not_found Flaky.disk) Flaky.start))))
                   <= 1)%nat).
    { apply H; [vm_compute; reflexivity | vm_compute; discriminate | reflexivity]. }
    vm_compute in Hle. lia.
Qed.

(** C6, amended: when the fetch of the dequeued URL fails, by a transport
    error or by a status from 400 to 599, the iteration makes that one
    request and nothing else: the entry leaves the frontier and is not put
    back, the visited set, the counter and the files are unchanged, nothing
    is stored and no checkpoint is written; the loop goes on with the next
    entry of the frontier. *)
Theorem fetch_failure_only_dequeues BS uj http disk s u q :
  url_queue s = u :: q -> u ∉ visited_urls s ->
  fetch_fails (http (clock s) u) = true ->
  crawl_step BS uj (http_world http disk) s = (tick (set_url_queue q s), [EvDownload u])
  /\ url_queue (fst (crawl_step BS uj (http_world http disk) s)) = q
  /\ visited_urls (fst (crawl_step BS uj (http_world http disk) s)) = visited_urls s
  /\ pages_processed (fst (crawl_step BS uj (http_world http disk) s)) = pages_processed s
  /\ files (fst (crawl_step BS uj (http_world http disk) s)) = files s
  /\ (forall n, pages_processed s < max_pages s ->
        crawl_loop BS uj (http_world http disk) (S n) s
        = (fst (crawl_loop BS uj (http_world http disk) n (tick (set_url_queue q s))),
           EvDownload u
           :: snd (crawl_loop BS uj (http_world http disk) n (tick (set_url_queue q s))))).
Proof.
  intros Hq Hv Hfail.
  assert (Hget : requests_get (http_world http disk) (clock s) u = None).
  { simpl. unfold response_text, fetch_fails in *.
    destruct (http (clock s) u) as [|st body]; [reflexivity | now rewrite Hfail]. }
  pose proof (crawl_step_fetch_failed BS uj (http_world http disk) s u q Hq Hv Hget) as E.
  rewrite E. repeat split.
  intros n Hlt. rewrite crawl_loop_S, E.
  unfold running. rewrite Hq.
  now replace (pages_processed s <? max_pages s) with true by (symmetry; now apply Z.ltb_lt).
Qed.

Lemma fetch_failure_only_dequeues_witness :
  crawl_step Example.BeautifulSoup Example.urljoin (http_world Flaky.not_found Flaky.disk)
    (init Example.rome_url "pages" 10000 ∅ 0)
  = (tick (set_url_queue [] (init Example.rome_url "pages" 10000 ∅ 0)),
     [EvDownload Example.rome_url])
  /\ snd (crawl_loop Example.BeautifulSoup Example.urljoin
            (http_world Flaky.not_found Flaky.disk) 3
            (init Example.rome_url "pages" 10000 ∅ 0))
     = [EvDownload Example.rome_url].
Proof.
  destruct (fetch_failure_only_dequeues Example.BeautifulSoup Example.urljoin
              Flaky.not_found Flaky.disk (init Example.rome_url "pages" 10000 ∅ 0)
              Example.rome_url []) as (Hstep & _ & _ & _ & _ & Hloop).
  - reflexivity.
  - vm_compute. discriminate.
  - reflexivity.
  - split; [exact Hstep|]. rewrite (Hloop 2%nat); [reflexivity | reflexivity].
Defined.

(** C5: for a page without a title heading [parse_page] returns [None] and
    leaves the crawler as it was, whatever anchors the document holds; the
    iteration stores no record, writes no page file, adds nothing to the
    frontier and does not mark the URL visited. *)
Theorem untitled_page_is_ignored BS uj W s u q body :
  url_queue s = u :: q -> u ∉ visited_urls s ->
  requests_get W (clock s) u = Some body -> body <> EmptyString ->
  Soup.find_id "firstHeading" (BS body) = None ->
  (forall s0, parse_page BS uj u body s0 = (None, s0))
  /\ url_queue (fst (crawl_step BS uj W s)) = q
  /\ visited_urls (fst (crawl_step BS uj W s)) = visited_urls s
  /\ pages_processed (fst (crawl_step BS uj W s)) = pages_processed s
  /\ stored_count (snd (crawl_step BS uj W s)) = 0%nat
  /\ page_files (directory s) (files (fst (crawl_step BS uj W s)))
     = page_files (directory s) (files s).
Proof.
  intros Hq Hv Hget Hbody Htitle.
  assert (Hparse : forall s0, parse_page BS uj u body s0 = (None, s0)).
  { intros s0. unfold parse_page. now rewrite Htitle. }
  split; [exact Hparse|].
  apply truthy_true_iff in Hbody.
  rewrite (crawl_step_page BS uj W s u q body Hq Hv Hget Hbody). cbv zeta.
  rewrite Hparse. cbn [fst snd].
  set (s0 := tick (set_url_queue q s)).
  destruct (save_periodically_same W s0) as (_ & _ & _ & Hcv & Hcq & Hcp).
  rewrite Hcv, Hcq, Hcp. repeat split.
  - change (EvDownload u :: [] ++ snd (save_periodically W s0))
      with ([EvDownload u] ++ snd (save_periodically W s0)).
    now rewrite stored_count_app, save_periodically_stored.
  - apply (save_periodically_page_files W s0).
Qed.

Lemma untitled_page_is_ignored_witness :
  url_queue (fst (crawl_step Example.BeautifulSoup Example.urljoin Example.blank_web
                    (init Example.stub_url "pages" 10000 ∅ 0))) = []
  /\ stored_count (snd (crawl_step Example.BeautifulSoup Example.urljoin Example.blank_web
                          (init Example.stub_url "pages" 10000 ∅ 0))) = 0%nat.
Proof.
  destruct (untitled_page_is_ignored Example.BeautifulSoup Example.urljoin
              Example.blank_web (init Example.stub_url "pages" 10000 ∅ 0)
              Example.stub_url [] Example.stub_body)
    as (_ & Hq & _ & _ & Hs & _).
  - reflexivity.
  - vm_compute. discriminate.
  - reflexivity.
  - discriminate.
  - reflexivity.
  - split; [exact Hq | exact Hs].
Defined.

(** ** Storing a page *)

(** C7: [store_page] on a record with an empty title does nothing.  With a
    title, when the write succeeds the counter grows by one and the record is
    at the path made of the directory and the title in which each of the nine
    unsafe characters is replaced by an underscore; when the write fails the
    counter and every other file are unchanged.  In each case the function
    returns the crawler, which goes on: the handler of the exception is the
    branch that returns the state. *)
Theorem store_page_outcomes W data s :
  (title data = EmptyString -> store_page W data s = (s, []))
  /\ (title data <> EmptyString ->
      open_write W (clock s) (page_file_path (directory s) (title data)) = WriteOk ->
      pages_processed (fst (store_page W data s)) = pages_processed s + 1
      /\ files (fst (store_page W data s))
         = <[page_file_path (directory s) (title data) := PageFile data]> (files s)
      /\ snd (store_page W data s) = [EvStored (page_file_path (directory s) (title data))])
  /\ (title data <> EmptyString ->
      open_write W (clock s) (page_file_path (directory s) (title data)) <> WriteOk ->
      pages_processed (fst (store_page W data s)) = pages_processed s
      /\ snd (store_page W data s) = []
      /\ forall p, p <> page_file_path (directory s) (title data) ->
                   files (fst (store_page W data s)) !! p = files s !! p)
  /\ page_file_path (directory s) (title data)
     = os_path_join (directory s) (file_name_of (title data) ++ ".json")%string
  /\ String.length (file_name_of (title data)) = String.length (title data)
  /\ (forall i, String.get i (file_name_of (title data))
                = option_map (fun c => if unsafe_char c then "_"%char else c)
                    (String.get i (title data)))
  /\ visited_urls (fst (store_page W data s)) = visited_urls s
  /\ url_queue (fst (store_page W data s)) = url_queue s.
Proof.
  pose proof (store_page_frame W data s) as Hf. cbv zeta in Hf.
  destruct Hf as (_ & _ & _ & Hv & Hq & _).
  split; [intros Ht; unfold store_page; now rewrite Ht|].
  split.
  { intros Ht Hw. apply truthy_true_iff in Ht.
    unfold store_page, write_file. rewrite Ht, Hw. repeat split. }
  split.
  { intros Ht Hw. apply truthy_true_iff in Ht.
    assert (E : store_page W data s
                = (snd (write_file W (page_file_path (directory s) (title data))
                          (PageFile data) s), [])).
    { unfold store_page, write_file. rewrite Ht. simpl.
      destruct (open_write W (clock s) _); [congruence | reflexivity | reflexivity]. }
    rewrite E. cbn [fst snd]. split; [|split; [reflexivity|]].
    - now destruct (write_file_same W (page_file_path (directory s) (title data))
                      (PageFile data) s) as (_ & _ & _ & _ & _ & ->).
    - intros p Hp. now apply write_file_other. }
  repeat split; auto using file_name_of_length, file_name_of_get.
Qed.

Lemma store_page_outcomes_witness :
  store_page Example.history_web
    {| url := Example.blank_url; title := EmptyString; paragraphs := [];
       links := []; table_of_contents := [] |}
    (init Example.blank_url "pages" 10000 ∅ 0)
  = (init Example.blank_url "pages" 10000 ∅ 0, [])
  /\ pages_processed
       (fst (store_page Example.history_web
               {| url := Example.history_url; title := "AC/DC: Live?"; paragraphs := [];
                  links := []; table_of_contents := [] |}
               (init Example.history_url "pages" 10000 ∅ 0))) = 0 + 1
  /\ pages_processed
       (fst (store_page Example.broken_disk
               {| url := Example.history_url; title := "History"; paragraphs := [];
                  links := []; table_of_contents := [] |}
               (init Example.history_url "pages" 10000 ∅ 0))) = 0.
Proof.
  split; [|split].
  - apply (store_page_outcomes Example.history_web). reflexivity.
  - destruct (store_page_outcomes Example.history_web
                {| url := Example.history_url; title := "AC/DC: Live?"; paragraphs := [];
                   links := []; table_of_contents := [] |}
                (init Example.history_url "pages" 10000 ∅ 0)) as (_ & Hok & _).
    destruct Hok as (Hpp & _); [discriminate | reflexivity | exact Hpp].
  - destruct (store_page_outcomes Example.broken_disk
                {| url := Example.history_url; title := "History"; paragraphs := [];
                   links := []; table_of_contents := [] |}
                (init Example.history_url "pages" 10000 ∅ 0)) as (_ & _ & Hfail & _).
    destruct Hfail as (Hpp & _); [discriminate | discriminate | exact Hpp].
Defined.

(** ** The checkpoint *)

(** C8: a checkpoint that is written, then loaded by a crawler started on
    the same directory, gives back the visited set that was saved. *)
Theorem checkpoint_roundtrip W s start max t :
  open_write W (clock s) (progress_file (directory s)) = WriteOk ->
  visited_urls (init start (directory s) max (files (fst (save_progress W s))) t)
  = visited_urls s.
Proof.
  intros Hw. unfold save_progress, write_file. rewrite Hw. simpl.
  unfold init, load_progress. simpl.
  rewrite lookup_insert_eq. simpl.
  apply list_to_set_elements_L.
Qed.

Lemma checkpoint_roundtrip_witness :
  visited_urls
    (init Example.rome_url (directory Example.midway) 10
       (files (fst (save_progress Example.history_web Example.midway))) 5)
  = visited_urls Example.midway.
Proof.
  exact (checkpoint_roundtrip Example.history_web Example.midway
           Example.rome_url 10 5%nat eq_refl).
Defined.

(** C10: when the checkpoint file exists and decodes, the counter after
    loading is the number of URLs of the loaded visited set; the counter
    stored in the file plays no part. *)
Theorem load_counts_visited start dir max fs t f :
  fs !! progress_file dir = Some f -> f <> Garbage ->
  pages_processed (init start dir max fs t)
  = Z.of_nat (size (visited_urls (init start dir max fs t)))
  /\ forall v n, f = ProgressFile v n ->
       visited_urls (init start dir max fs t) = list_to_set v
       /\ pages_processed (init start dir max fs t)
          = Z.of_nat (size (list_to_set v : gset string)).
Proof.
  intros Hf Hg. unfold init, load_progress. cbn [files directory]. rewrite Hf.
  destruct f as [d|v n|]; [| |congruence];
    cbn [pages_processed visited_urls set_pages_processed set_visited_urls].
  - split; [now rewrite size_empty|]. intros v n [=].
  - split; [reflexivity|]. intros v' n' [= <- <-]. now split.
Qed.

Lemma load_counts_visited_witness :
  pages_processed
    (init Example.history_url "pages" 10000
       {[ "pages/crawl_progress.json" :=
            ProgressFile [Example.rome_url; Example.rome_url; Example.blank_url] 7 ]} 0)
  = 2.
Proof.
  destruct (load_counts_visited Example.history_url "pages" 10000
              {[ "pages/crawl_progress.json" :=
                   ProgressFile [Example.rome_url; Example.rome_url; Example.blank_url] 7 ]}
              0%nat
              (ProgressFile [Example.rome_url; Example.rome_url; Example.blank_url] 7))
    as [_ H].
  - vm_compute. reflexivity.
  - discriminate.
  - destruct (H _ _ eq_refl) as [_ ->]. vm_compute. reflexivity.
Defined.

(** ** Extraction *)

Lemma heading_is_not_paragraph e : Spec.is_heading e = true -> Spec.is_paragraph e = false.
Proof.
  unfold Spec.is_heading, Spec.is_paragraph, Soup.is_tag.
  destruct e as [t|nm a cs]; [discriminate|].
  intros H. apply String.eqb_eq in H. subst nm. reflexivity.
Qed.

Lemma most_recent_section_snoc seen e :
  Spec.most_recent_section (seen ++ [e])
  = if Spec.is_heading e then Spec.element_text e else Spec.most_recent_section seen.
Proof.
  unfold Spec.most_recent_section. rewrite rev_app_distr. simpl.
  now destruct (Spec.is_heading e).
Qed.

(** The loop over the children keeps, as current section, the label of the
    most recent heading, and appends the paragraphs in document order. *)
Lemma paragraphs_loop rest : forall seen acc,
  fold_left paragraphs_body rest (Spec.most_recent_section seen, acc)
  = (Spec.most_recent_section (seen ++ rest), acc ++ Spec.sectioned seen rest).
Proof.
  induction rest as [|e rest IH]; intros seen acc; simpl.
  { now rewrite !app_nil_r. }
  replace (seen ++ e :: rest) with ((seen ++ [e]) ++ rest) by now rewrite <- app_assoc.
  pose proof (most_recent_section_snoc seen e) as Hsec.
  pose proof (heading_is_not_paragraph e) as Hex.
  unfold Spec.is_heading, Spec.is_paragraph, Spec.element_text in *.
  destruct (Soup.is_tag "h2" e) eqn:Eh.
  - rewrite Hex by reflexivity. simpl. rewrite <- Hsec. apply IH.
  - destruct (Soup.is_tag "p" e && PyStr.truthy (PyStr.strip (Soup.get_text e))).
    + rewrite (app_assoc acc), <- IH, Hsec. reflexivity.
    + simpl. rewrite <- IH, Hsec. reflexivity.
Qed.

Lemma extract_paragraphs_sectioned soup :
  extract_paragraphs soup = Spec.sectioned [] (Spec.content_elements soup).
Proof.
  unfold extract_paragraphs, Spec.content_elements.
  destruct (Soup.find_class "div" "mw-parser-output" soup) as [content_div|]; [|reflexivity].
  change (EmptyString, @nil paragraph) with (Spec.most_recent_section [], @nil paragraph).
  now rewrite paragraphs_loop.
Qed.

(** C3: for a page with a title heading, the paragraphs of the record are
    the paragraph elements with non-empty text among the top-level content
    elements, in document order, each under the label of the most recent
    heading before it, the empty string when there is none.  With a
    paragraph, the heading History, a paragraph, the heading Culture and a
    paragraph, the three paragraphs come under the empty section, History
    and Culture. *)
Theorem paragraphs_follow_sections BS uj u content s title_elem :
  Soup.find_id "firstHeading" (BS content) = Some title_elem ->
  exists d,
    fst (parse_page BS uj u content s) = Some d
    /\ paragraphs d = Spec.sectioned [] (Spec.content_elements (BS content))
    /\ forall e0 h1 e1 h2 e2,
         Spec.content_elements (BS content) = [e0; h1; e1; h2; e2] ->
         Spec.is_paragraph e0 = true -> Spec.is_paragraph e1 = true ->
         Spec.is_paragraph e2 = true ->
         Spec.is_heading h1 = true -> Spec.element_text h1 = "History" ->
         Spec.is_heading h2 = true -> Spec.element_text h2 = "Culture" ->
         paragraphs d
         = [ {| section := EmptyString; text := Spec.element_text e0 |};
             {| section := "History"; text := Spec.element_text e1 |};
             {| section := "Culture"; text := Spec.element_text e2 |} ].
Proof.
  intros Htitle. unfold parse_page. rewrite Htitle. simpl.
  eexists. split; [reflexivity|]. simpl.
  split; [apply extract_paragraphs_sectioned|].
  intros e0 h1 e1 h2 e2 Hels Hp0 Hp1 Hp2 Hh1 Ht1 Hh2 Ht2.
  rewrite extract_paragraphs_sectioned, Hels. simpl.
  rewrite Hp0, Hp1, Hp2.
  rewrite (heading_is_not_paragraph h1 Hh1), (heading_is_not_paragraph h2 Hh2). simpl.
  unfold Spec.most_recent_section. simpl.
  rewrite Hh1, Hh2, Ht1, Ht2. reflexivity.
Qed.

Lemma paragraphs_follow_sections_witness :
  (exists d,
     fst (parse_page Example.BeautifulSoup Example.urljoin Example.history_url
            Example.culture_body Example.midway) = Some d
     /\ paragraphs d
        = [ {| section := EmptyString; text := "Lead." |};
            {| section := "History"; text := "Past." |};
            {| section := "Culture"; text := "Arts.art" |} ])
  /\ (exists d,
        fst (parse_page Example.BeautifulSoup Example.urljoin Example.history_url
               Example.outline_body Example.midway) = Some d
        /\ paragraphs d
           = [ {| section := EmptyString; text := "Lead." |};
               {| section := "History"; text := "Past." |};
               {| section := "Culture"; text := "Arts." |} ]).
Proof.
  split.
  - destruct (paragraphs_follow_sections Example.BeautifulSoup Example.urljoin
                Example.history_url Example.culture_body Example.midway
                (Tag "h1" [("id", AttrStr "firstHeading")] [NavigableString "Culture"])
                eq_refl) as (d & Hd & Hps & _).
    exists d. split; [exact Hd|]. rewrite Hps. vm_compute. reflexivity.
  - destruct (paragraphs_follow_sections Example.BeautifulSoup Example.urljoin
                Example.history_url Example.outline_body Example.midway
                (Tag "h1" [("id", AttrStr "firstHeading")] [NavigableString "Outline"])
                eq_refl) as (d & Hd & _ & Hex).
    exists d. split; [exact Hd|].
    apply (Hex (Tag "p" [] [NavigableString "Lead."])
               (Tag "h2" [] [NavigableString "History"])
               (Tag "p" [] [NavigableString "Past."])
               (Tag "h2" [] [NavigableString "Culture"])
               (Tag "p" [] [NavigableString "Arts."])); reflexivity.
Defined.

(** The links of a page, built by the loop over the anchors. *)
Lemma extract_links_loop uj visited base anchors : forall acc,
  fold_left (extract_links_body uj visited base) anchors acc
  = acc ++ List.filter (fun full => negb (bool_decide (full ∈ visited)))
             (List.map (uj base)
                (List.filter wiki_page_link_pattern (flat_map Spec.href_of anchors))).
Proof.
  induction anchors as [|a anchors IH]; intros acc; simpl.
  { now rewrite app_nil_r. }
  rewrite IH. unfold extract_links_body at 1, Spec.href_of at 2.
  destruct (Soup.get "href" a) as [[href|l]|]; simpl; try reflexivity.
  destruct (wiki_page_link_pattern href) eqn:Hm.
  - assert (Ht : PyStr.truthy href = true).
    { destruct href; [discriminate Hm | reflexivity]. }
    rewrite Ht. simpl.
    destruct (bool_decide (uj base href ∈ visited)); simpl; [reflexivity|].
    now rewrite <- app_assoc.
  - now rewrite andb_false_r.
Qed.

Lemma drop_prefix_spec p : forall s r,
  PyStr.drop_prefix p s = Some r <-> s = (p ++ r)%string.
Proof.
  induction p as [|a p IH]; intros s r; simpl.
  { split; [now intros [= ->] | now intros ->]. }
  destruct s as [|b s]; [split; discriminate|].
  destruct (Ascii.eqb_spec a b) as [->|Hne].
  - rewrite IH. split; [now intros -> | now intros [= ->]].
  - split; [discriminate | intros [= -> _]; congruence].
Qed.

(** The pattern accepts the hrefs made of [/wiki/] and a rest without colon
    and without hash. *)
Lemma wiki_page_link_pattern_spec href :
  wiki_page_link_pattern href = true
  <-> exists rest, href = ("/wiki/" ++ rest)%string
        /\ PyStr.all_chars (fun c => negb (Ascii.eqb c ":"%char || Ascii.eqb c "#"%char)) rest
           = true.
Proof.
  unfold wiki_page_link_pattern. split.
  - destruct (PyStr.drop_prefix "/wiki/" href) as [rest|] eqn:E; [|discriminate].
    intros H. exists rest. split; [now apply drop_prefix_spec | exact H].
  - intros (rest & Hh & H). apply drop_prefix_spec in Hh. now rewrite Hh.
Qed.

(** C4: the list returned by [extract_links] is, in the document order of
    the anchors, the hrefs that match the content-page pattern, each resolved
    against the base URL, without the resolved URLs of the visited set. *)
Theorem extract_links_outbound uj s soup base_url :
  extract_links uj s soup base_url
  = Spec.outbound_links uj (visited_urls s) soup base_url.
Proof.
  unfold extract_links, Spec.outbound_links. now rewrite extract_links_loop.
Qed.

(** * Further properties of the crawler *)

(** ** The five ways an iteration can go *)

Section Cases.

Variable BeautifulSoup : string -> node.
Variable urljoin : string -> string -> string.
Variable W : World.

Local Abbreviation step := (crawl_step BeautifulSoup urljoin W).
Local Abbreviation loop := (crawl_loop BeautifulSoup urljoin W).

Lemma crawl_step_empty s : url_queue s = [] -> step s = (s, []).
Proof. intros Hq. unfold crawl_step. now rewrite Hq. Qed.

Lemma crawl_step_untitled s u q body :
  url_queue s = u :: q -> u ∉ visited_urls s ->
  requests_get W (clock s) u = Some body -> body <> EmptyString ->
  Soup.find_id "firstHeading" (BeautifulSoup body) = None ->
  step s = (fst (save_periodically W (tick (set_url_queue q s))),
            EvDownload u :: snd (save_periodically W (tick (set_url_queue q s)))).
Proof.
  intros Hq Hv Hget Hbody Htitle. apply truthy_true_iff in Hbody.
  rewrite (crawl_step_page BeautifulSoup urljoin W s u q body Hq Hv Hget Hbody). cbv zeta.
  unfold parse_page. rewrite Htitle. reflexivity.
Qed.

Lemma crawl_step_titled s u q body title_elem :
  url_queue s = u :: q -> u ∉ visited_urls s ->
  requests_get W (clock s) u = Some body -> body <> EmptyString ->
  Soup.find_id "firstHeading" (BeautifulSoup body) = Some title_elem ->
  let s0 := tick (set_url_queue q s) in
  let new_links := extract_links urljoin s0 (BeautifulSoup body) u in
  let d := {| url := u;
              title := PyStr.strip (Soup.get_text title_elem);
              paragraphs := extract_paragraphs (BeautifulSoup body);
              links := new_links;
              table_of_contents := extract_toc (BeautifulSoup body) |} in
  let stored := store_page W d (set_url_queue (q ++ new_links) s0) in
  let s2 := set_visited_urls (visited_urls (fst stored) ∪ {[u]}) (fst stored) in
  step s = (fst (save_periodically W s2),
            EvDownload u :: snd stored ++ snd (save_periodically W s2)).
Proof.
  intros Hq Hv Hget Hbody Htitle. apply truthy_true_iff in Hbody.
  rewrite (crawl_step_page BeautifulSoup urljoin W s u q body Hq Hv Hget Hbody). cbv zeta.
  unfold parse_page. rewrite Htitle. reflexivity.
Qed.

End Cases.

(** ** What an iteration keeps *)

Ltac step_cases BS uj W s :=
  let u := fresh "u" in
  let q := fresh "q" in
  let Hq := fresh "Hq" in
  let Hv := fresh "Hv" in
  let body := fresh "body" in
  let Hget := fresh "Hget" in
  let Hbody := fresh "Hbody" in
  let te := fresh "title_elem" in
  let Ht := fresh "Htitle" in
  destruct (url_queue s) as [|u q] eqn:Hq;
  [ rewrite (crawl_step_empty BS uj W s Hq)
  | destruct (decide (u ∈ visited_urls s)) as [Hv|Hv];
    [ rewrite (crawl_step_visited BS uj W s u q Hq Hv)
    | destruct (requests_get W (clock s) u) as [body|] eqn:Hget;
      [ destruct (string_dec body EmptyString) as [Hbody|Hbody];
        [ subst body; rewrite (crawl_step_empty_body BS uj W s u q Hq Hv Hget)
        | destruct (Soup.find_id "firstHeading" (BS body)) as [te|] eqn:Ht;
          [ rewrite (crawl_step_titled BS uj W s u q body te Hq Hv Hget Hbody Ht)
          | rewrite (crawl_step_untitled BS uj W s u q body Hq Hv Hget Hbody Ht) ] ]
      | rewrite (crawl_step_fetch_failed BS uj W s u q Hq Hv Hget) ] ] ];
  cbv zeta; cbn [fst snd].

Section Keeps.

Variable BeautifulSoup : string -> node.
Variable urljoin : string -> string -> string.
Variable W : World.

Local Abbreviation step := (crawl_step BeautifulSoup urljoin W).
Local Abbreviation loop := (crawl_loop BeautifulSoup urljoin W).

Lemma store_page_files d s p :
  p <> page_file_path (directory s) (title d) ->
  files (fst (store_page W d s)) !! p = files s !! p.
Proof.
  intros Hp. unfold store_page. destruct (negb _); [reflexivity|].
  pose proof (write_file_other W _ (PageFile d) s p Hp) as H.
  destruct (write_file W _ _ s) as [[|] s1]; exact H.
Qed.

Lemma save_progress_files s p :
  p <> progress_file (directory s) ->
  files (fst (save_progress W s)) !! p = files s !! p.
Proof.
  intros Hp. unfold save_progress.
  pose proof (write_file_other W _
    (ProgressFile (elements (visited_urls s)) (pages_processed s)) s p Hp) as H.
  destruct (write_file W _ _ s) as [ok s1]; exact H.
Qed.

Lemma save_periodically_files s p :
  p <> progress_file (directory s) ->
  files (fst (save_periodically W s)) !! p = files s !! p.
Proof.
  intros Hp. unfold save_periodically. destruct (_ =? _); [|reflexivity].
  now apply save_progress_files.
Qed.

(** The configuration of the crawler never changes. *)
Lemma crawl_step_config s :
  directory (fst (step s)) = directory s
  /\ max_pages (fst (step s)) = max_pages s
  /\ start_url (fst (step s)) = start_url s.
Proof.
  step_cases BeautifulSoup urljoin W s; try (repeat split; fail).
  - match goal with |- context [save_periodically W ?x] =>
      destruct (save_periodically_same W x) as (-> & -> & -> & _) end.
    match goal with |- context [store_page W ?d ?x] =>
      pose proof (store_page_frame W d x) as Hs; cbv zeta in Hs;
      destruct Hs as (Hs1 & Hs2 & Hs3 & _) end.
    simpl. rewrite Hs1, Hs2, Hs3. repeat split.
  - match goal with |- context [save_periodically W ?x] =>
      destruct (save_periodically_same W x) as (-> & -> & -> & _) end.
    repeat split.
Qed.

Lemma crawl_loop_config n : forall s,
  directory (fst (loop n s)) = directory s
  /\ max_pages (fst (loop n s)) = max_pages s
  /\ start_url (fst (loop n s)) = start_url s.
Proof.
  induction n as [|n IH]; intros s; [repeat split|].
  rewrite crawl_loop_S. destruct (running s); [|repeat split]. cbn [fst].
  destruct (IH (fst (step s))) as (-> & -> & ->). apply crawl_step_config.
Qed.

(** An iteration writes the checkpoint and page files of its directory and
    no other file. *)
Lemma crawl_step_files s p :
  ~ crawler_path (directory s) p ->
  files (fst (step s)) !! p = files s !! p.
Proof.
  intros Hp.
  assert (Hck : p <> progress_file (directory s)) by (intros ->; apply Hp; now left).
  assert (Hpg : forall t, p <> page_file_path (directory s) t)
    by (intros t ->; apply Hp; right; now exists t).
  step_cases BeautifulSoup urljoin W s; try reflexivity.
  - rewrite save_periodically_files.
    + simpl. rewrite store_page_files; [reflexivity | apply Hpg].
    + simpl.
      match goal with |- context [store_page W ?d ?x] =>
        pose proof (store_page_frame W d x) as Hs; cbv zeta in Hs;
        destruct Hs as (_ & -> & _) end.
      exact Hck.
  - rewrite save_periodically_files; [reflexivity | exact Hck].
Qed.

Lemma crawl_loop_files n : forall s p,
  ~ crawler_path (directory s) p ->
  files (fst (loop n s)) !! p = files s !! p.
Proof.
  induction n as [|n IH]; intros s p Hp; [reflexivity|].
  rewrite crawl_loop_S. destruct (running s); [|reflexivity]. cbn [fst].
  rewrite IH.
  - now apply crawl_step_files.
  - destruct (crawl_step_config s) as (-> & _). exact Hp.
Qed.

End Keeps.

(** ** The page budget *)

Lemma crawl_loop_budget BS uj W n : forall s,
  pages_processed (fst (crawl_loop BS uj W n s))
  <= Z.max (pages_processed s) (max_pages s).
Proof.
  induction n as [|n IH]; intros s; [simpl; lia|].
  rewrite crawl_loop_S. unfold running.
  destruct (url_queue s) as [|u q] eqn:Hq; [simpl; lia|].
  destruct (Z.ltb_spec (pages_processed s) (max_pages s)) as [Hlt|Hge]; [|simpl; lia].
  cbn [fst]. specialize (IH (fst (crawl_step BS uj W s))).
  destruct (crawl_step_config BS uj W s) as (_ & Hmax & _).
  destruct (crawl_step_summary BS uj W s) as (_ & _ & _ & pre & ck & _ & _ & Hle & Hpp & _).
  rewrite Hmax in IH. lia.
Qed.

(** X1: the counter never passes [max_pages] when it starts below it, so a run
    writes at most [max_pages - pages_processed] page records. *)
Theorem crawl_respects_budget BS uj W n s :
  pages_processed (fst (crawl BS uj W n s)) <= Z.max (pages_processed s) (max_pages s)
  /\ Z.of_nat (stored_count (snd (crawl BS uj W n s)))
     <= Z.max 0 (max_pages s - pages_processed s).
Proof.
  pose proof (crawl_counter BS uj W n s) as Hc.
  assert (Hb : pages_processed (fst (crawl BS uj W n s))
               <= Z.max (pages_processed s) (max_pages s)).
  { rewrite crawl_unfold. cbn [fst].
    destruct (save_progress_same W (fst (crawl_loop BS uj W n s))) as (_ & _ & _ & _ & _ & ->).
    apply crawl_loop_budget. }
  split; [exact Hb | lia].
Qed.

(** X2: with the budget used up, or an empty frontier, [crawl] requests nothing
    and stores nothing: it only writes the final checkpoint. *)
Theorem crawl_without_budget BS uj W n s :
  max_pages s <= pages_processed s \/ url_queue s = [] ->
  crawl BS uj W n s = save_progress W s.
Proof.
  intros H.
  assert (Hrun : running s = false).
  { unfold running. destruct H as [H| ->]; [|reflexivity].
    destruct (url_queue s); [reflexivity|]. now apply Z.ltb_ge. }
  rewrite crawl_unfold, (crawl_loop_stopped BS uj W n s Hrun). cbn [fst snd].
  now destruct (save_progress W s).
Qed.

Lemma crawl_without_budget_witness :
  crawl Example.BeautifulSoup Example.urljoin Example.history_web 7
    (init Example.history_url "pages" 0 ∅ 0)
  = save_progress Example.history_web (init Example.history_url "pages" 0 ∅ 0).
Proof.
  apply (crawl_without_budget Example.BeautifulSoup Example.urljoin Example.history_web
           7 (init Example.history_url "pages" 0 ∅ 0)).
  left. vm_compute. discriminate.
Defined.

(** ** Starting again from a checkpoint *)

Lemma init_from_checkpoint start dir max fs t v k :
  fs !! progress_file dir = Some (ProgressFile v k) ->
  init start dir max fs t
  = {| start_url := start; directory := dir; max_pages := max;
       visited_urls := list_to_set v; url_queue := [start];
       pages_processed := Z.of_nat (size (list_to_set v : gset string));
       files := fs; clock := t |}.
Proof.
  intros H. unfold init, load_progress. cbn [files directory]. now rewrite H.
Qed.

Lemma crawl_visited BS uj W n s u :
  u ∈ visited_urls s ->
  downloads u (snd (crawl BS uj W n s)) = 0%nat
  /\ u ∈ visited_urls (fst (crawl BS uj W n s)).
Proof.
  intros Hu. rewrite crawl_unfold. cbn [fst snd].
  destruct (crawl_loop_visited BS uj W n s u Hu) as [Hd Hin].
  destruct (save_progress_same W (fst (crawl_loop BS uj W n s))) as (_ & _ & _ & -> & _ & _).
  destruct (save_progress_events W (fst (crawl_loop BS uj W n s))) as [ok ->].
  split; [|exact Hin]. now rewrite downloads_app, Hd.
Qed.

(** X4: a crawler started on a checkpoint never requests a URL the checkpoint
    lists, however often the pages it visits link to it. *)
Theorem resumed_crawler_skips_saved_urls BS uj W fuel c fs t v k u :
  fs !! progress_file (config_directory c) = Some (ProgressFile v k) ->
  u ∈ v ->
  downloads u (snd (run_crawler BS uj W fuel c fs t)) = 0%nat.
Proof.
  intros Hf Hu. unfold run_crawler.
  apply crawl_visited. rewrite (init_from_checkpoint _ _ _ _ _ v k Hf). simpl.
  now apply elem_of_list_to_set.
Qed.

(** X5: the frontier is not saved: a crawler started on a checkpoint that lists
    its seed finds the seed visited, requests nothing, stores nothing, and
    ends after the final checkpoint. *)
Theorem resumed_crawler_with_visited_seed BS uj W fuel c fs t v k :
  fs !! progress_file (config_directory c) = Some (ProgressFile v k) ->
  config_start_url c ∈ v ->
  exists ok, snd (run_crawler BS uj W fuel c fs t) = [EvSaveProgress ok]
             /\ visited_urls (fst (run_crawler BS uj W fuel c fs t)) = list_to_set v.
Proof.
  intros Hf Hu. unfold run_crawler.
  rewrite (init_from_checkpoint _ _ _ _ _ v k Hf).
  set (s := {| start_url := config_start_url c; directory := config_directory c;
               max_pages := config_max_pages c; visited_urls := list_to_set v;
               url_queue := [config_start_url c];
               pages_processed := Z.of_nat (size (list_to_set v : gset string));
               files := fs; clock := t |}).
  assert (Hin : config_start_url c ∈ visited_urls s)
    by (simpl; now apply elem_of_list_to_set).
  assert (Hloop : crawl_loop BS uj W fuel s = (s, [])
                  \/ crawl_loop BS uj W fuel s = (set_url_queue [] s, [])).
  { destruct fuel as [|fuel]; [now left|].
    rewrite crawl_loop_S. destruct (running s); [|now left]. right.
    rewrite (crawl_step_visited BS uj W s (config_start_url c) [] eq_refl Hin).
    cbn [fst snd]. now rewrite crawl_loop_stopped. }
  rewrite crawl_unfold.
  destruct Hloop as [-> | ->]; cbn [fst snd].
  - destruct (save_progress_events W s) as [ok Hok]. exists ok. rewrite Hok.
    split; [reflexivity|].
    now destruct (save_progress_same W s) as (_ & _ & _ & -> & _ & _).
  - destruct (save_progress_events W (set_url_queue [] s)) as [ok Hok]. exists ok.
    rewrite Hok. split; [reflexivity|].
    now destruct (save_progress_same W (set_url_queue [] s)) as (_ & _ & _ & -> & _ & _).
Qed.

Lemma resumed_crawler_skips_saved_urls_witness :
  downloads Example.history_url
    (snd (run_crawler Example.BeautifulSoup Example.urljoin Example.history_web 5
            rome_config saved_files 0)) = 0%nat.
Proof.
  apply (resumed_crawler_skips_saved_urls Example.BeautifulSoup Example.urljoin
           Example.history_web 5 rome_config saved_files 0%nat
           [Example.history_url] 1 Example.history_url).
  - vm_compute. reflexivity.
  - apply list_elem_of_In. now left.
Defined.

Lemma resumed_crawler_with_visited_seed_witness :
  exists ok,
    snd (run_crawler Example.BeautifulSoup Example.urljoin Example.history_web 5
           history_config saved_files 0) = [EvSaveProgress ok]
    /\ visited_urls
         (fst (run_crawler Example.BeautifulSoup Example.urljoin Example.history_web 5
                 history_config saved_files 0))
       = list_to_set [Example.history_url].
Proof.
  apply (resumed_crawler_with_visited_seed Example.BeautifulSoup Example.urljoin
           Example.history_web 5 history_config saved_files 0%nat
           [Example.history_url] 1).
  - vm_compute. reflexivity.
  - apply list_elem_of_In. now left.
Defined.

Lemma save_progress_written W s :
  open_write W (clock s) (progress_file (directory s)) = WriteOk ->
  files (fst (save_progress W s))
  = <[progress_file (directory s) :=
        ProgressFile (elements (visited_urls s)) (pages_processed s)]> (files s).
Proof. intros Hw. unfold save_progress, write_file. now rewrite Hw. Qed.

(** X6: when the final checkpoint of a crawl is written, the checkpoint file
    holds the visited set and the counter the crawl ended with, and a crawler
    started on the same directory begins with that visited set. *)
Theorem crawl_then_restart BS uj W n s start max t :
  open_write W (clock (fst (crawl_loop BS uj W n s))) (progress_file (directory s)) = WriteOk ->
  files (fst (crawl BS uj W n s)) !! progress_file (directory s)
  = Some (ProgressFile (elements (visited_urls (fst (crawl BS uj W n s))))
            (pages_processed (fst (crawl BS uj W n s))))
  /\ visited_urls (init start (directory s) max (files (fst (crawl BS uj W n s))) t)
     = visited_urls (fst (crawl BS uj W n s)).
Proof.
  intros Hw. rewrite crawl_unfold. cbn [fst].
  set (s1 := fst (crawl_loop BS uj W n s)) in *.
  assert (Hdir : directory s1 = directory s) by apply crawl_loop_config.
  rewrite <- Hdir in Hw |- *.
  destruct (save_progress_same W s1) as (_ & _ & _ & Hv & _ & Hp).
  rewrite Hv, Hp, (save_progress_written W s1 Hw), lookup_insert_eq.
  split; [reflexivity|].
  unfold init, load_progress. cbn [files directory].
  rewrite lookup_insert_eq. simpl. apply list_to_set_elements_L.
Qed.

Lemma crawl_then_restart_witness :
  visited_urls
    (init Example.rome_url (directory Example.midway) 10
       (files (fst (crawl Example.BeautifulSoup Example.urljoin Example.history_web 4
                      Example.midway))) 0)
  = visited_urls
      (fst (crawl Example.BeautifulSoup Example.urljoin Example.history_web 4
              Example.midway)).
Proof.
  exact (proj2 (crawl_then_restart Example.BeautifulSoup Example.urljoin
                  Example.history_web 4 Example.midway Example.rome_url 10 0%nat eq_refl)).
Defined.

(** ** The counter and the visited set *)

Lemma crawl_step_counter_le_visited BS uj W s :
  pages_processed s <= Z.of_nat (size (visited_urls s)) ->
  pages_processed (fst (crawl_step BS uj W s))
  <= Z.of_nat (size (visited_urls (fst (crawl_step BS uj W s)))).
Proof.
  intros Hinv. step_cases BS uj W s; try exact Hinv.
  - match goal with |- context [save_periodically W ?x] =>
      destruct (save_periodically_same W x) as (_ & _ & _ & -> & _ & ->) end.
    match goal with |- context [store_page W ?d ?x] =>
      pose proof (store_page_frame W d x) as Hs; cbv zeta in Hs;
      destruct Hs as (_ & _ & _ & Hsv & _ & Hsp & Hle & _) end.
    simpl. rewrite Hsv, Hsp. simpl.
    rewrite size_union by set_solver. rewrite size_singleton. lia.
  - match goal with |- context [save_periodically W ?x] =>
      destruct (save_periodically_same W x) as (_ & _ & _ & -> & _ & ->) end.
    exact Hinv.
Qed.

Lemma crawl_loop_counter_le_visited BS uj W n : forall s,
  pages_processed s <= Z.of_nat (size (visited_urls s)) ->
  pages_processed (fst (crawl_loop BS uj W n s))
  <= Z.of_nat (size (visited_urls (fst (crawl_loop BS uj W n s)))).
Proof.
  induction n as [|n IH]; intros s Hinv; [exact Hinv|].
  rewrite crawl_loop_S. destruct (running s); [|exact Hinv]. cbn [fst].
  apply IH. now apply crawl_step_counter_le_visited.
Qed.

(** X7: in a run of [run_crawler] that ends through the loop condition,
    with an empty frontier or the budget reached, the counter is at most the
    number of visited URLs: each stored page marks a URL that was not yet
    visited. *)
Theorem counter_at_most_visited BS uj W fuel c fs t :
  running (fst (crawl_loop BS uj W fuel
                  (init (config_start_url c) (config_directory c) (config_max_pages c)
                     fs t))) = false ->
  pages_processed (fst (run_crawler BS uj W fuel c fs t))
  <= Z.of_nat (size (visited_urls (fst (run_crawler BS uj W fuel c fs t)))).
Proof.
  intros _. unfold run_crawler. rewrite crawl_unfold. cbn [fst].
  match goal with |- context [save_progress W ?x] =>
    destruct (save_progress_same W x) as (_ & _ & _ & -> & _ & ->) end.
  apply crawl_loop_counter_le_visited.
  unfold init, load_progress. cbn [files directory].
  destruct (fs !! progress_file (config_directory c)) as [[d|v k|]|]; simpl; lia.
Qed.

Lemma counter_at_most_visited_witness :
  pages_processed
    (fst (run_crawler Example.BeautifulSoup Example.urljoin Example.history_web 5
            history_config ∅ 0))
  <= Z.of_nat
       (size (visited_urls
                (fst (run_crawler Example.BeautifulSoup Example.urljoin Example.history_web 5
                        history_config ∅ 0)))).
Proof.
  apply (counter_at_most_visited Example.BeautifulSoup Example.urljoin
           Example.history_web 5 history_config ∅ 0%nat).
  vm_compute. reflexivity.
Defined.

Lemma downloads_cons_self u l : downloads u (EvDownload u :: l) = S (downloads u l).
Proof. unfold downloads. simpl. now rewrite String.eqb_refl. Qed.

Lemma crawl_step_visited_fetched BS uj W s v :
  v ∈ visited_urls (fst (crawl_step BS uj W s)) ->
  v ∈ visited_urls s \/ (1 <= downloads v (snd (crawl_step BS uj W s)))%nat.
Proof.
  step_cases BS uj W s; try (intros H; now left).
  - match goal with |- context [save_periodically W ?x] =>
      destruct (save_periodically_same W x) as (_ & _ & _ & -> & _ & _) end.
    match goal with |- context [store_page W ?d ?x] =>
      pose proof (store_page_frame W d x) as Hs; cbv zeta in Hs;
      destruct Hs as (_ & _ & _ & Hsv & _) end.
    simpl. rewrite Hsv. simpl. intros [H|H]%elem_of_union; [now left|].
    apply elem_of_singleton in H. subst v. right. rewrite downloads_cons_self. lia.
  - match goal with |- context [save_periodically W ?x] =>
      destruct (save_periodically_same W x) as (_ & _ & _ & -> & _ & _) end.
    intros H. now left.
Qed.

(** X8: a URL enters the visited set only in an iteration that requested it:
    every URL visited at the end of a crawl was visited at its start or was
    requested during the crawl. *)
Theorem visited_only_after_fetch BS uj W n s v :
  v ∈ visited_urls (fst (crawl BS uj W n s)) ->
  v ∈ visited_urls s \/ (1 <= downloads v (snd (crawl BS uj W n s)))%nat.
Proof.
  rewrite crawl_unfold. cbn [fst snd].
  destruct (save_progress_same W (fst (crawl_loop BS uj W n s))) as (_ & _ & _ & -> & _ & _).
  rewrite downloads_app.
  assert (Hloop : forall m s', v ∈ visited_urls (fst (crawl_loop BS uj W m s')) ->
            v ∈ visited_urls s' \/ (1 <= downloads v (snd (crawl_loop BS uj W m s')))%nat).
  { induction m as [|m IH]; intros s' Hin; [now left|].
    rewrite crawl_loop_S in Hin |- *. destruct (running s'); [|now left].
    cbn [fst snd] in *. rewrite downloads_app.
    destruct (IH _ Hin) as [H|H]; [|right; lia].
    destruct (crawl_step_visited_fetched BS uj W s' v H) as [H'|H']; [now left | right; lia]. }
  intros Hin. destruct (Hloop n s Hin) as [H|H]; [now left | right; lia].
Qed.

Lemma visited_only_after_fetch_witness :
  Example.history_url ∈ visited_urls (init Example.history_url "pages" 10000 ∅ 0)
  \/ (1 <= downloads Example.history_url (snd Example.history_run))%nat.
Proof.
  apply (visited_only_after_fetch Example.BeautifulSoup Example.urljoin Example.history_web
           10 (init Example.history_url "pages" 10000 ∅ 0) Example.history_url).
  vm_compute. reflexivity.
Defined.

(** ** The files a crawl writes *)

Lemma crawl_files BS uj W n s p :
  ~ crawler_path (directory s) p ->
  files (fst (crawl BS uj W n s)) !! p = files s !! p.
Proof.
  intros Hp. rewrite crawl_unfold. cbn [fst].
  assert (Hdir : directory (fst (crawl_loop BS uj W n s)) = directory s)
    by apply crawl_loop_config.
  rewrite save_progress_files.
  - now apply crawl_loop_files.
  - rewrite Hdir. intros ->. apply Hp. now left.
Qed.

(** X9: a crawl writes the checkpoint and the page files of its own directory
    and leaves every other file as it was. *)
Theorem crawl_writes_own_directory BS uj W n s p :
  ~ crawler_path (directory s) p ->
  files (fst (crawl BS uj W n s)) !! p = files s !! p.
Proof. apply crawl_files. Qed.

Lemma all_chars_app f a b :
  PyStr.all_chars f (a ++ b)%string = PyStr.all_chars f a && PyStr.all_chars f b.
Proof.
  induction a as [|c a IH]; simpl; [reflexivity|]. now rewrite IH, andb_assoc.
Qed.

Lemma all_chars_impl (f g : ascii -> bool) s :
  (forall c, f c = true -> g c = true) ->
  PyStr.all_chars f s = true -> PyStr.all_chars g s = true.
Proof.
  intros Hfg. induction s as [|c s IH]; simpl; [reflexivity|].
  intros [Hc Hs]%andb_true_iff. now rewrite (Hfg c Hc), IH.
Qed.

Lemma file_name_slash_free t : slash_free (file_name_of t ++ ".json") = true.
Proof.
  unfold slash_free. rewrite all_chars_app, andb_true_iff. split; [|reflexivity].
  apply (all_chars_impl (fun c => negb (unsafe_char c))); [|apply file_name_of_safe].
  intros c Hc. destruct (Ascii.eqb_spec c "/"%char) as [->|]; [discriminate Hc | reflexivity].
Qed.

Lemma slash_free_no_prefix b : slash_free b = true -> PyStr.drop_prefix "/" b = None.
Proof.
  destruct b as [|c b]; [reflexivity|]. unfold slash_free.
  cbn [PyStr.all_chars PyStr.drop_prefix].
  intros [Hc _]%andb_true_iff.
  destruct (Ascii.eqb_spec "/"%char c) as [<-|]; [discriminate Hc | reflexivity].
Qed.

Lemma os_path_join_plain d b :
  plain_directory d = true -> slash_free b = true ->
  os_path_join d b = (d ++ "/" ++ b)%string.
Proof.
  intros Hd Hb. unfold os_path_join, plain_directory in *.
  rewrite (slash_free_no_prefix b Hb).
  destruct (PyStr.last_char d) as [c|]; [|discriminate].
  now destruct (Ascii.eqb c "/"%char).
Qed.

Lemma slash_free_app_slash a b : slash_free (a ++ "/" ++ b) = false.
Proof.
  unfold slash_free. rewrite all_chars_app. simpl. apply andb_false_r.
Qed.

(** The last slash of a path splits it in one way only. *)
Lemma split_at_last_slash a1 : forall a2 b1 b2,
  slash_free b1 = true -> slash_free b2 = true ->
  (a1 ++ "/" ++ b1 = a2 ++ "/" ++ b2)%string -> a1 = a2 /\ b1 = b2.
Proof.
  induction a1 as [|c a1 IH]; intros a2 b1 b2 H1 H2 E.
  - destruct a2 as [|c2 a2]; simpl in E.
    + injection E as E. now split.
    + injection E as _ E. change (b1 = (a2 ++ "/" ++ b2)%string) in E. subst b1.
      now rewrite slash_free_app_slash in H1.
  - destruct a2 as [|c2 a2]; simpl in E.
    + injection E as _ E. change ((a1 ++ "/" ++ b1)%string = b2) in E. subst b2.
      now rewrite slash_free_app_slash in H2.
    + injection E as -> E. destruct (IH a2 b1 b2 H1 H2 E) as [-> ->]. now split.
Qed.

Lemma crawler_path_split d p :
  plain_directory d = true -> crawler_path d p ->
  exists b, slash_free b = true /\ p = (d ++ "/" ++ b)%string.
Proof.
  intros Hd [-> | [t ->]].
  - exists "crawl_progress.json". split; [reflexivity|].
    now apply os_path_join_plain.
  - exists (file_name_of t ++ ".json")%string. split; [apply file_name_slash_free|].
    apply os_path_join_plain; [exact Hd | apply file_name_slash_free].
Qed.

Lemma crawl_writes_own_directory_witness :
  files (fst (crawl Example.BeautifulSoup Example.urljoin Example.history_web 4
                Example.midway)) !! "notes.txt"
  = files Example.midway !! "notes.txt".
Proof.
  apply (crawl_writes_own_directory Example.BeautifulSoup Example.urljoin
           Example.history_web 4 Example.midway "notes.txt").
  intros Hpath.
  destruct (crawler_path_split "pages" "notes.txt" eq_refl Hpath) as (b & _ & H).
  discriminate H.
Defined.

Lemma run_crawler_other_directory BS uj W fuel c fs t d p :
  plain_directory (config_directory c) = true -> plain_directory d = true ->
  config_directory c <> d -> crawler_path d p ->
  files (fst (run_crawler BS uj W fuel c fs t)) !! p = fs !! p.
Proof.
  intros Hc Hd Hne Hp. unfold run_crawler.
  assert (Hdir : forall s0, directory (load_progress s0) = directory s0).
  { intros s0. unfold load_progress.
    now destruct (files s0 !! progress_file (directory s0)) as [[?|? ?|]|]. }
  assert (Hfiles : forall s0, files (load_progress s0) = files s0).
  { intros s0. unfold load_progress.
    now destruct (files s0 !! progress_file (directory s0)) as [[?|? ?|]|]. }
  rewrite crawl_files.
  - unfold init. now rewrite Hfiles.
  - unfold init. rewrite Hdir. simpl. intros Hown.
    destruct (crawler_path_split _ _ Hc Hown) as (b1 & Hb1 & E1).
    destruct (crawler_path_split _ _ Hd Hp) as (b2 & Hb2 & E2).
    rewrite E1 in E2. now destruct (split_at_last_slash _ _ _ _ Hb1 Hb2 E2).
Qed.

(** X11: the three crawlers that [main] starts work on three directories: none
    of them touches the checkpoint or a page file of another. *)
Theorem main_crawlers_are_independent BS uj W fuel fs t c1 c2 p :
  In c1 crawler_configs -> In c2 crawler_configs -> c1 <> c2 ->
  crawler_path (config_directory c2) p ->
  files (fst (run_crawler BS uj W fuel c1 fs t)) !! p = fs !! p.
Proof.
  intros H1 H2 Hne Hp.
  apply (run_crawler_other_directory BS uj W fuel c1 fs t (config_directory c2) p);
    [| | |exact Hp];
    simpl in H1, H2;
    destruct H1 as [<-|[<-|[<-|[]]]]; destruct H2 as [<-|[<-|[<-|[]]]];
    try reflexivity; try discriminate; try (exfalso; apply Hne; reflexivity).
Qed.

Lemma main_crawlers_are_independent_witness :
  files (fst (run_crawler Example.BeautifulSoup Example.urljoin dead_web 3
                {| config_start_url := "https://en.wiktionary.org/wiki/culture";
                   config_directory := "../pages/culture_wiki";
                   config_max_pages := 10000 |}
                saved_files 0))
    !! progress_file "../pages/history_wiki"
  = saved_files !! progress_file "../pages/history_wiki".
Proof.
  apply (main_crawlers_are_independent Example.BeautifulSoup Example.urljoin dead_web 3
           saved_files 0%nat
           {| config_start_url := "https://en.wiktionary.org/wiki/culture";
              config_directory := "../pages/culture_wiki";
              config_max_pages := 10000 |}
           {| config_start_url := "https://en.wikipedia.org/wiki/History";
              config_directory := "../pages/history_wiki";
              config_max_pages := 10000 |}).
  - now left.
  - right. right. now left.
  - discriminate.
  - now left.
Defined.

(** X12: in a run of [run_crawler] that ends through the loop condition,
    the counter grows by exactly the number of page records written: at the
    end it is the value loaded at the start plus the files written since. *)
Theorem counter_counts_stored_pages BS uj W fuel c fs t :
  running (fst (crawl_loop BS uj W fuel
                  (init (config_start_url c) (config_directory c) (config_max_pages c)
                     fs t))) = false ->
  pages_processed (fst (run_crawler BS uj W fuel c fs t))
  = pages_processed (init (config_start_url c) (config_directory c) (config_max_pages c) fs t)
    + Z.of_nat (stored_count (snd (run_crawler BS uj W fuel c fs t))).
Proof. intros _. unfold run_crawler. apply crawl_counter. Qed.

Lemma counter_counts_stored_pages_witness :
  pages_processed
    (fst (run_crawler Example.BeautifulSoup Example.urljoin Example.history_web 5
            history_config ∅ 0))
  = pages_processed (init Example.history_url "pages" 10000 ∅ 0)
    + Z.of_nat
        (stored_count
           (snd (run_crawler Example.BeautifulSoup Example.urljoin Example.history_web 5
                   history_config ∅ 0))).
Proof.
  apply (counter_counts_stored_pages Example.BeautifulSoup Example.urljoin
           Example.history_web 5 history_config ∅ 0%nat).
  vm_compute. reflexivity.
Defined.

(** ** File names *)

(** X13: the file name of a title holds none of the nine unsafe characters,
    sanitising it again changes nothing, and a title is its own file name
    exactly when it holds none of them. *)
Theorem file_name_of_sanitized t :
  PyStr.all_chars (fun c => negb (unsafe_char c)) (file_name_of t) = true
  /\ file_name_of (file_name_of t) = file_name_of t
  /\ (file_name_of t = t <-> PyStr.all_chars (fun c => negb (unsafe_char c)) t = true).
Proof.
  split; [apply file_name_of_safe|]. unfold file_name_of. split.
  - induction t as [|c t IH]; simpl; [reflexivity|]. rewrite IH. f_equal.
    destruct (unsafe_char c) eqn:E; [reflexivity | now rewrite E].
  - induction t as [|c t IH]; simpl; [tauto|].
    destruct (unsafe_char c) eqn:E; simpl.
    + split; [|discriminate]. intros [= Hc _]. subst c. discriminate E.
    + rewrite <- IH. split; [now intros [= ->] | now intros ->].
Qed.

Lemma file_name_of_sanitized_witness :
  file_name_of "History of Rome" = "History of Rome".
Proof.
  apply (proj2 (proj2 (file_name_of_sanitized "History of Rome"))). reflexivity.
Defined.

Lemma store_page_ok W d s :
  title d <> EmptyString ->
  open_write W (clock s) (page_file_path (directory s) (title d)) = WriteOk ->
  store_page W d s
  = (set_pages_processed (pages_processed s + 1)
       (set_files (<[page_file_path (directory s) (title d) := PageFile d]> (files s))
          (tick s)),
     [EvStored (page_file_path (directory s) (title d))]).
Proof.
  intros Ht Hw. apply truthy_true_iff in Ht.
  unfold store_page, write_file. now rewrite Ht, Hw.
Qed.

(** X14: two titles with the same file name share one file: after both records
    are stored the file holds the second one, and the counter has counted
    two. *)
Theorem same_file_name_overwrites W d1 d2 s :
  title d1 <> EmptyString -> title d2 <> EmptyString ->
  file_name_of (title d1) = file_name_of (title d2) ->
  open_write W (clock s) (page_file_path (directory s) (title d1)) = WriteOk ->
  open_write W (S (clock s)) (page_file_path (directory s) (title d1)) = WriteOk ->
  files (fst (store_page W d2 (fst (store_page W d1 s))))
  = <[page_file_path (directory s) (title d1) := PageFile d2]> (files s)
  /\ pages_processed (fst (store_page W d2 (fst (store_page W d1 s))))
     = pages_processed s + 2.
Proof.
  intros H1 H2 Hn Hw1 Hw2.
  assert (Hp : page_file_path (directory s) (title d2)
               = page_file_path (directory s) (title d1))
    by (unfold page_file_path; now rewrite Hn).
  rewrite (store_page_ok W d1 s H1 Hw1). cbn [fst].
  rewrite (store_page_ok W d2 _ H2); cbn [directory clock set_pages_processed set_files tick];
    rewrite Hp; [|exact Hw2].
  cbn [fst files pages_processed set_pages_processed set_files tick].
  split; [apply insert_insert_eq | lia].
Qed.

Lemma same_file_name_overwrites_witness :
  pages_processed
    (fst (store_page Example.history_web acdc_colon
            (fst (store_page Example.history_web acdc_slash Example.midway))))
  = pages_processed Example.midway + 2.
Proof.
  apply (same_file_name_overwrites Example.history_web acdc_slash acdc_colon Example.midway);
    try discriminate; reflexivity.
Defined.

(** X15: a record whose title has the file name of the checkpoint is stored over
    the checkpoint: a crawler started on the directory after that write
    begins with nothing visited. *)
Theorem page_can_replace_checkpoint W d s start max t :
  file_name_of (title d) = "crawl_progress" ->
  open_write W (clock s) (progress_file (directory s)) = WriteOk ->
  files (fst (store_page W d s)) !! progress_file (directory s) = Some (PageFile d)
  /\ visited_urls (init start (directory s) max (files (fst (store_page W d s))) t) = ∅
  /\ pages_processed (init start (directory s) max (files (fst (store_page W d s))) t) = 0.
Proof.
  intros Hn Hw.
  assert (Hp : page_file_path (directory s) (title d) = progress_file (directory s))
    by (unfold page_file_path, progress_file; now rewrite Hn).
  assert (Ht : PyStr.truthy (title d) = true).
  { destruct (title d); [discriminate Hn | reflexivity]. }
  assert (Hf : files (fst (store_page W d s)) !! progress_file (directory s)
               = Some (PageFile d)).
  { unfold store_page. rewrite Ht. cbn [negb]. unfold write_file. rewrite Hp, Hw.
    cbn [fst files set_pages_processed set_files]. apply lookup_insert_eq. }
  split; [exact Hf|].
  unfold init, load_progress. cbn [files directory]. rewrite Hf. now split.
Qed.

Lemma page_can_replace_checkpoint_witness :
  visited_urls
    (init Example.history_url (directory Example.midway) 10
       (files (fst (store_page Example.history_web progress_page Example.midway))) 0)
  = ∅.
Proof.
  apply (page_can_replace_checkpoint Example.history_web progress_page Example.midway
           Example.history_url 10 0%nat); reflexivity.
Defined.

(** ** What a page record holds *)

Lemma most_recent_section_origin seen :
  Spec.most_recent_section seen = EmptyString
  \/ exists h, In h seen /\ Spec.is_heading h = true
               /\ Spec.most_recent_section seen = Spec.element_text h.
Proof.
  unfold Spec.most_recent_section.
  destruct (List.find Spec.is_heading (rev seen)) as [h|] eqn:E; [|now left].
  right. exists h. apply List.find_some in E. destruct E as [Hin Hh].
  split; [now apply in_rev | now split].
Qed.

Lemma sectioned_entries rest : forall seen,
  Forall (fun p => text p <> EmptyString
                   /\ (section p = EmptyString
                       \/ exists h, In h (seen ++ rest) /\ Spec.is_heading h = true
                                    /\ section p = Spec.element_text h))
         (Spec.sectioned seen rest).
Proof.
  induction rest as [|e rest IH]; intros seen; simpl; [constructor|].
  apply Forall_app. split.
  - destruct (Spec.is_paragraph e) eqn:Hp; [|constructor].
    constructor; [|constructor]. simpl. split.
    + unfold Spec.is_paragraph in Hp. apply andb_true_iff in Hp. destruct Hp as [_ Hp].
      now apply truthy_true_iff.
    + destruct (most_recent_section_origin seen) as [H|(h & Hin & Hh & H)]; [now left|].
      right. exists h. split; [apply in_or_app; now left | now split].
  - specialize (IH (seen ++ [e])). rewrite <- app_assoc in IH. exact IH.
Qed.

(** X16: no recorded paragraph has an empty text, and the section of each one is
    the empty string or the label of a heading among the top-level content
    elements of the page. *)
Theorem recorded_paragraphs soup :
  Forall (fun p => text p <> EmptyString
                   /\ (section p = EmptyString
                       \/ exists h, In h (Spec.content_elements soup)
                                    /\ Spec.is_heading h = true
                                    /\ section p = Spec.element_text h))
         (extract_paragraphs soup).
Proof.
  rewrite extract_paragraphs_sectioned. apply (sectioned_entries _ []).
Qed.

(** ** The frontier *)

(** X17: an iteration takes one URL from the head of the frontier and appends at
    the tail the links of the page it got, in document order, when that page
    has a title heading; in every other case it appends nothing.  The links
    are tested against the visited set before the page's own URL is added to
    it. *)
Theorem frontier_is_fifo BS uj W s :
  url_queue (fst (crawl_step BS uj W s))
  = tl (url_queue s) ++ discovered_links BS uj W s.
Proof.
  unfold discovered_links.
  step_cases BS uj W s.
  - simpl. assumption.
  - rewrite bool_decide_eq_true_2 by assumption. simpl. now rewrite app_nil_r.
  - rewrite bool_decide_eq_false_2 by assumption. simpl. now rewrite app_nil_r.
  - rewrite bool_decide_eq_false_2 by assumption.
    rewrite (proj2 (truthy_true_iff body)) by assumption.
    match goal with |- context [save_periodically W ?x] =>
      destruct (save_periodically_same W x) as (_ & _ & _ & _ & -> & _) end.
    match goal with |- context [store_page W ?d ?x] =>
      pose proof (store_page_frame W d x) as Hs; cbv zeta in Hs;
      destruct Hs as (_ & _ & _ & _ & Hsq & _) end.
    simpl. rewrite Hsq. simpl. f_equal.
    unfold extract_links. simpl. unfold Spec.outbound_links.
    now rewrite extract_links_loop.
  - rewrite bool_decide_eq_false_2 by assumption.
    rewrite (proj2 (truthy_true_iff body)) by assumption.
    match goal with |- context [save_periodically W ?x] =>
      destruct (save_periodically_same W x) as (_ & _ & _ & _ & -> & _) end.
    simpl. now rewrite app_nil_r.
  - rewrite bool_decide_eq_false_2 by assumption. simpl. now rewrite app_nil_r.
Qed.

(** ** A web that does not answer *)

(** X18: when every request fails and the budget is not used up, the loop ends
    within as many iterations as the frontier has URLs: the frontier is then
    empty, nothing was stored or marked visited, no file was written, and at
    most one request was made for each URL of the frontier. *)
Theorem crawl_loop_on_dead_web BS uj W n : forall s,
  (forall t u, requests_get W t u = None) ->
  pages_processed s < max_pages s ->
  (length (url_queue s) <= n)%nat ->
  url_queue (fst (crawl_loop BS uj W n s)) = []
  /\ visited_urls (fst (crawl_loop BS uj W n s)) = visited_urls s
  /\ pages_processed (fst (crawl_loop BS uj W n s)) = pages_processed s
  /\ files (fst (crawl_loop BS uj W n s)) = files s
  /\ Forall (fun e => exists u, e = EvDownload u /\ In u (url_queue s))
            (snd (crawl_loop BS uj W n s))
  /\ (length (snd (crawl_loop BS uj W n s)) <= length (url_queue s))%nat.
Proof.
  induction n as [|n IH]; intros s Hdead Hlt Hlen.
  { destruct (url_queue s) as [|u q] eqn:Hq; [|simpl in Hlen; lia].
    simpl. rewrite Hq. repeat split; auto. }
  rewrite crawl_loop_S. unfold running.
  destruct (url_queue s) as [|u q] eqn:Hq.
  { cbn [fst snd]. rewrite Hq. repeat split; auto. }
  rewrite (proj2 (Z.ltb_lt _ _) Hlt).
  assert (Hstep : (crawl_step BS uj W s = (set_url_queue q s, [])
                   \/ crawl_step BS uj W s = (tick (set_url_queue q s), [EvDownload u]))).
  { destruct (decide (u ∈ visited_urls s)) as [Hv|Hv].
    - left. exact (crawl_step_visited BS uj W s u q Hq Hv).
    - right. exact (crawl_step_fetch_failed BS uj W s u q Hq Hv (Hdead _ _)). }
  simpl in Hlen.
  destruct Hstep as [E|E]; rewrite E; cbn [fst snd].
  - destruct (IH (set_url_queue q s) Hdead Hlt) as (H1 & H2 & H3 & H4 & H5 & H6);
      [simpl; lia|].
    rewrite H1, H2, H3, H4. simpl in *.
    do 4 (split; [reflexivity|]). split; [|lia].
    eapply Forall_impl; [exact H5|]. intros e (v & -> & Hin). exists v. split; auto.
  - destruct (IH (tick (set_url_queue q s)) Hdead Hlt) as (H1 & H2 & H3 & H4 & H5 & H6);
      [simpl; lia|].
    rewrite H1, H2, H3, H4. simpl in *.
    do 4 (split; [reflexivity|]). split; [|lia].
    constructor; [exists u; split; auto|].
    eapply Forall_impl; [exact H5|]. intros e (v & -> & Hin). exists v. split; auto.
Qed.

Lemma crawl_loop_on_dead_web_witness :
  url_queue (fst (crawl_loop Example.BeautifulSoup Example.urljoin dead_web 4
                    Example.midway)) = [].
Proof.
  apply (crawl_loop_on_dead_web Example.BeautifulSoup Example.urljoin dead_web 4
           Example.midway).
  - reflexivity.
  - reflexivity.
  - simpl. lia.
Defined.

(** ** The link pattern *)

(** X19: the pattern accepts exactly the hrefs made of [/wiki/] followed by any
    characters other than colon and hash, the empty rest included. *)
Theorem link_pattern_accepts href :
  wiki_page_link_pattern href = true
  <-> exists rest, href = ("/wiki/" ++ rest)%string
        /\ PyStr.all_chars (fun c => negb (Ascii.eqb c ":"%char || Ascii.eqb c "#"%char)) rest
           = true.
Proof. apply wiki_page_link_pattern_spec. Qed.

Lemma link_pattern_accepts_witness :
  wiki_page_link_pattern "/wiki/Rome" = true
  /\ exists rest, "/wiki/" = ("/wiki/" ++ rest)%string
       /\ PyStr.all_chars (fun c => negb (Ascii.eqb c ":"%char || Ascii.eqb c "#"%char)) rest
          = true.
Proof.
  split.
  - apply (proj2 (link_pattern_accepts "/wiki/Rome")).
    exists "Rome". split; reflexivity.
  - apply (proj1 (link_pattern_accepts "/wiki/")). reflexivity.
Defined.
